(** * Tableau MCP server: a shallow embedding of [tableau_mcp_server.py]

    The development follows the source file top-down: the Python values the
    code inspects, the [xml.etree.ElementTree] interface it uses, the HTTP
    transport, the [TableauServerMCP] client and the tool dispatcher
    [handle_call_tool].

    Conventions.
    - [str] is [string], the UTF-8 bytes of the text; [in] and [==] on two
      texts are the same on their bytes.
    - [None]-able strings are [option string]; truthiness is written out.
    - The client object and the requests issued so far form the state that
      every coroutine threads; exceptions are an explicit outcome.
    - [ET.fromstring], [urljoin], [str.lower] and the remote server are
      library or external behaviour: they are variables of the section.
    - Logging is not modelled: no result depends on it. *)

From Stdlib Require Import String Ascii List ZArith Bool Lia DecimalString.
From stdpp Require Import gmap strings.
Import ListNotations.

Set Warnings "-register-all".

Local Open Scope string_scope.
Local Open Scope list_scope.

(** ** Python values *)

Definition nl : string := String (ascii_of_nat 10) EmptyString.

(** [bool(s)] for a [str]. *)
Definition truthy_str (s : string) : bool :=
  match s with
  | EmptyString => false
  | String _ _ => true
  end.

(** [bool(x)] for a value that is [None] or a [str]. *)
Definition truthy (x : option string) : bool :=
  match x with
  | None => false
  | Some s => truthy_str s
  end.

(** [x is not None]. *)
Definition is_set (x : option string) : bool :=
  match x with
  | None => false
  | Some _ => true
  end.

(** How an f-string renders a value that is [None] or a [str]. *)
Definition fmt (x : option string) : string :=
  match x with
  | None => "None"
  | Some s => s
  end.

(** [str(n)] for a length. *)
Definition str_of_nat (n : nat) : string :=
  NilEmpty.string_of_uint (Nat.to_uint n).

(** [c.lower()] on one ASCII character. *)
Definition lower_ascii (c : ascii) : ascii :=
  let n := nat_of_ascii c in
  if (65 <=? n)%nat && (n <=? 90)%nat then ascii_of_nat (n + 32) else c.

(** [s.lower()] when [s] is ASCII text: what [str.lower] does there. The
    scenarios, whose texts are ASCII, run with it. *)
Fixpoint ascii_lower (s : string) : string :=
  match s with
  | EmptyString => EmptyString
  | String c s' => String (lower_ascii c) (ascii_lower s')
  end.

(** [sub in s]. *)
Fixpoint py_in (sub s : string) : bool :=
  String.prefix sub s ||
  match s with
  | EmptyString => false
  | String _ s' => py_in sub s'
  end.

(** [s.split(sep)] for a one-character separator; [acc] is the field read
    so far. *)
Fixpoint split_acc (sep : ascii) (acc : string) (s : string) : list string :=
  match s with
  | EmptyString => [acc]
  | String c s' =>
      if Ascii.eqb c sep then acc :: split_acc sep EmptyString s'
      else split_acc sep (acc +:+ String c EmptyString) s'
  end.

Definition split (sep : ascii) (s : string) : list string :=
  split_acc sep EmptyString s.

(** What [json.loads] can produce. A finite float is [mantissa * 2^exponent];
    it is zero exactly when the mantissa is. *)
Inductive Json : Type :=
| JNull
| JBool (b : bool)
| JInt (z : Z)
| JFloat (mantissa exponent : Z)
| JStr (s : string)
| JList (l : list Json)
| JDict (d : list (string * Json)).

(** [bool(v)]. *)
Definition truthy_json (v : Json) : bool :=
  match v with
  | JNull => false
  | JBool b => b
  | JInt z => negb (z =? 0)%Z
  | JFloat m _ => negb (m =? 0)%Z
  | JStr s => truthy_str s
  | JList l => match l with [] => false | _ :: _ => true end
  | JDict d => match d with [] => false | _ :: _ => true end
  end.

(** [type(v).__name__]. *)
Definition type_name (v : Json) : string :=
  match v with
  | JNull => "NoneType"
  | JBool _ => "bool"
  | JInt _ => "int"
  | JFloat _ _ => "float"
  | JStr _ => "str"
  | JList _ => "list"
  | JDict _ => "dict"
  end.

(** ** Exceptions *)

Inductive Exn : Type :=
| ValueError (msg : string)
| TypeError (msg : string)
| AttributeError (msg : string)
| ParseError (msg : string)
| ClientError (msg : string).

(** [str(e)]. *)
Definition str_exn (e : Exn) : string :=
  match e with
  | ValueError msg | TypeError msg | AttributeError msg | ParseError msg
  | ClientError msg => msg
  end.

(** [isinstance(e, ET.ParseError)]. *)
Definition is_ParseError (e : Exn) : bool :=
  match e with
  | ParseError _ => true
  | _ => false
  end.

Inductive Outcome (A : Type) : Type :=
| Return (a : A)
| Raise (e : Exn).
Arguments Return {A} a.
Arguments Raise {A} e.

(** ** The element tree *)

Inductive Element : Type :=
| Elem (tag : string) (attrib : list (string * string)) (children : list Element).

Definition tag (e : Element) : string := let (t, _, _) := e in t.
Definition attrib (e : Element) : list (string * string) := let (_, a, _) := e in a.
Definition children (e : Element) : list Element := let (_, _, c) := e in c.

(** [e.get(key)]. *)
Fixpoint assoc (key : string) (l : list (string * string)) : option string :=
  match l with
  | [] => None
  | (k, v) :: l' => if String.eqb k key then Some v else assoc key l'
  end.

Definition get (e : Element) (key : string) : option string :=
  assoc key (attrib e).

(** [e.get(key, default)]. *)
Definition get_default (e : Element) (key default : string) : string :=
  match get e key with
  | Some v => v
  | None => default
  end.

(** The proper descendants of [e] in document order. *)
Fixpoint descendants (e : Element) : list Element :=
  match e with
  | Elem _ _ cs =>
      (fix walk (l : list Element) : list Element :=
         match l with
         | [] => []
         | c :: l' => c :: descendants c ++ walk l'
         end) cs
  end.

(** [e.findall('.//name')]. *)
Definition findall_desc (e : Element) (name : string) : list Element :=
  List.filter (fun x => String.eqb (tag x) name) (descendants e).

(** [e.find('.//name')]. *)
Definition find_desc (e : Element) (name : string) : option Element :=
  List.head (findall_desc e name).

(** [e.find('name')]: direct children only. *)
Definition find_child (e : Element) (name : string) : option Element :=
  List.find (fun x => String.eqb (tag x) name) (children e).

(** The result of [ET.fromstring] on a [str]. *)
Inductive Parsed : Type :=
| Tree (root : Element)
| Malformed (msg : string).

(** ** The HTTP transport *)

(** The keyword arguments of [session.post] and [session.request]. *)
Record Request : Type := {
  method : string;
  url : string;
  data : option string;
  headers : list (string * option string);
  proxy : option string
}.

(** What the code reads from a response object: [response.status],
    [response.content_type], [await response.text()] and
    [await response.json()], which raises on a body it cannot decode. *)
Record Response : Type := {
  status : Z;
  content_type : string;
  text : string;
  json : Outcome Json
}.

(** [aiohttp.ClientSession]: the connector and the User-Agent header are the
    same in both branches of [initialize_session]. *)
Record ClientSession : Type := {
  trust_env : bool
}.

(** ** The client object *)

Record TableauServerMCP : Type := {
  server_url : string;
  site_id : string;
  token_name : option string;
  token_value : option string;
  proxy_url : string;
  no_proxy : string;
  auth_token : option string;
  site_uuid : option string;
  session : option ClientSession
}.

Definition with_auth_token (v : option string) (c : TableauServerMCP) : TableauServerMCP :=
  {| server_url := server_url c; site_id := site_id c;
     token_name := token_name c; token_value := token_value c;
     proxy_url := proxy_url c; no_proxy := no_proxy c;
     auth_token := v; site_uuid := site_uuid c; session := session c |}.

Definition with_site_uuid (v : option string) (c : TableauServerMCP) : TableauServerMCP :=
  {| server_url := server_url c; site_id := site_id c;
     token_name := token_name c; token_value := token_value c;
     proxy_url := proxy_url c; no_proxy := no_proxy c;
     auth_token := auth_token c; site_uuid := v; session := session c |}.

Definition with_session (v : option ClientSession) (c : TableauServerMCP) : TableauServerMCP :=
  {| server_url := server_url c; site_id := site_id c;
     token_name := token_name c; token_value := token_value c;
     proxy_url := proxy_url c; no_proxy := no_proxy c;
     auth_token := auth_token c; site_uuid := site_uuid c; session := v |}.

(** [TableauServerMCP.__init__], given what [os.getenv] finds for the two
    variables without a default. *)
Definition init (server site proxy noproxy : string) (name value : option string)
  : TableauServerMCP :=
  {| server_url := server; site_id := site;
     token_name := name; token_value := value;
     proxy_url := proxy; no_proxy := noproxy;
     auth_token := None; site_uuid := None; session := None |}.

(** The state a coroutine runs in: the module-level [tableau_client] and the
    requests that have left the process, oldest first. *)
Record World : Type := {
  client : TableauServerMCP;
  sent : list Request
}.

(** ** Coroutines: state and exceptions *)

Definition M (A : Type) : Type := World -> Outcome A * World.

Definition ret {A} (a : A) : M A := fun w => (Return a, w).

Definition raise {A} (e : Exn) : M A := fun w => (Raise e, w).

Definition bind {A B} (m : M A) (k : A -> M B) : M B :=
  fun w =>
    match m w with
    | (Return a, w') => k a w'
    | (Raise e, w') => (Raise e, w')
    end.

Notation "x <- m ;; k" := (bind m (fun x => k))
  (at level 100, m at next level, right associativity).
Notation "m ;; k" := (bind m (fun _ => k))
  (at level 100, right associativity).

(** [try: body / except <catches> as e: handler e]. *)
Definition try_except {A} (body : M A) (catches : Exn -> bool) (handler : Exn -> M A) : M A :=
  fun w =>
    match body w with
    | (Return a, w') => (Return a, w')
    | (Raise e, w') => if catches e then handler e w' else (Raise e, w')
    end.

(** [except Exception]: every exception of [Exn] is one. *)
Definition Exception (e : Exn) : bool := true.

Definition self : M TableauServerMCP := fun w => (Return (client w), w).

Definition assign (f : TableauServerMCP -> TableauServerMCP) : M unit :=
  fun w => (Return tt, {| client := f (client w); sent := sent w |}).

(** Lift a call that returns or raises. *)
Definition lift {A} (o : Outcome A) : M A := fun w => (o, w).

(** ** Records built from the server's XML *)

Module Workbook.
Record t : Type := {
  id : option string;
  name : option string;
  description : string;
  size : string;
  createdAt : option string;
  updatedAt : option string;
  project : option string;
  owner : option string
}.
End Workbook.

Module DataSource.
Record t : Type := {
  id : option string;
  name : option string;
  description : string;
  type : option string;
  createdAt : option string;
  updatedAt : option string;
  project : option string
}.
End DataSource.

Module View.
Record t : Type := {
  id : option string;
  name : option string;
  contentUrl : option string;
  viewUrlName : option string
}.
End View.

Module WorkbookDetails.
Record t : Type := {
  id : option string;
  name : option string;
  description : string;
  size : string;
  views : list View.t;
  viewCount : nat
}.
End WorkbookDetails.

(** [e.find('.//child').get('name') if e.find('.//child') is not None else
    'Unknown']. *)
Definition nested_name (e : Element) (child : string) : option string :=
  match find_desc e child with
  | Some x => get x "name"
  | None => Some "Unknown"
  end.

(** The dictionary appended for one [workbook] element. *)
Definition workbook_record (workbook : Element) : Workbook.t :=
  {| Workbook.id := get workbook "id";
     Workbook.name := get workbook "name";
     Workbook.description := get_default workbook "description" "";
     Workbook.size := get_default workbook "size" "0";
     Workbook.createdAt := get workbook "createdAt";
     Workbook.updatedAt := get workbook "updatedAt";
     Workbook.project := nested_name workbook "project";
     Workbook.owner := nested_name workbook "owner" |}.

(** The dictionary appended for one [datasource] element. *)
Definition datasource_record (ds : Element) : DataSource.t :=
  {| DataSource.id := get ds "id";
     DataSource.name := get ds "name";
     DataSource.description := get_default ds "description" "";
     DataSource.type := get ds "type";
     DataSource.createdAt := get ds "createdAt";
     DataSource.updatedAt := get ds "updatedAt";
     DataSource.project := nested_name ds "project" |}.

(** The dictionary appended for one [view] element. *)
Definition view_record (view : Element) : View.t :=
  {| View.id := get view "id";
     View.name := get view "name";
     View.contentUrl := get view "contentUrl";
     View.viewUrlName := get view "viewUrlName" |}.

(** ** Tool results *)

Module TextContent.
Record t : Type := {
  type : string;
  text : string
}.
End TextContent.

Module CallToolResult.
Record t : Type := {
  content : list TextContent.t;
  isError : bool
}.
End CallToolResult.

(** [CallToolResult(content=[TextContent(type="text", text=...)],
    isError=...)], the shape of every result the dispatcher builds;
    [isError] is [False] where the source leaves it out. *)
Definition text_result (text : string) (isError : bool) : CallToolResult.t :=
  {| CallToolResult.content :=
       [ {| TextContent.type := "text"; TextContent.text := text |} ];
     CallToolResult.isError := isError |}.

(** ** [class TableauServerMCP] *)

Section Client.

(** [ET.fromstring] on a [str]. *)
Variable fromstring : string -> Parsed.

(** [urllib.parse.urljoin]. *)
Variable urljoin : string -> string -> string.

(** The remote end: what the [n]-th request of the process meets, a
    response or a transport exception (connection refused, time-out, a
    body that cannot be read). *)
Variable net : nat -> ClientSession -> Request -> Outcome Response.

(** [str.lower]: Unicode-aware, so given by the library and not by a
    table here. *)
Variable lower : string -> string.

(** [ET.fromstring(v)]: a [str] is parsed, anything else is refused by
    the parser's [feed]. *)
Definition ET_fromstring (v : Json) : M Element :=
  match v with
  | JStr s =>
      match fromstring s with
      | Tree root => ret root
      | Malformed msg => raise (ParseError msg)
      end
  | _ =>
      raise (TypeError
               ("a bytes-like object is required, not '" +:+ type_name v +:+ "'"))
  end.

(** The session writes a request only when every header value is a
    [str]. *)
Definition writable (req : Request) : bool :=
  forallb (fun header => is_set (snd header)) (headers req).

(** [self.session.request(method, url, ...)] entered as a context manager:
    on [None] the attribute access fails; a header whose value is [None]
    makes the session raise a type error before anything is written (its
    text only ever reaches the log); otherwise the request leaves. *)
Definition request (attr : string) (req : Request) : M Response :=
  fun w =>
    match session (client w) with
    | None =>
        (Raise (AttributeError
                  ("'NoneType' object has no attribute '" +:+ attr +:+ "'")), w)
    | Some s =>
        if writable req then
          (net (length (sent w)) s req,
           {| client := client w; sent := sent w ++ [req] |})
        else
          (Raise (TypeError "Cannot serialize non-str key None"), w)
    end.

(** [self.proxy_url if self.proxy_url else None]. *)
Definition proxy_arg (c : TableauServerMCP) : option string :=
  if truthy_str (proxy_url c) then Some (proxy_url c) else None.

Definition initialize_session : M unit :=
  c <- self ;;
  if truthy_str (proxy_url c)
     && negb (existsb (fun host => py_in host (server_url c))
                      (split "," (no_proxy c)))
  then assign (with_session (Some {| trust_env := true |}))
  else assign (with_session (Some {| trust_env := false |})).

Definition signin_xml (c : TableauServerMCP) : string :=
  nl +:+ "        <tsRequest>" +:+ nl +:+
  "            <credentials personalAccessTokenName='" +:+ fmt (token_name c) +:+
  "' personalAccessTokenSecret='" +:+ fmt (token_value c) +:+ "'>" +:+ nl +:+
  "                <site contentUrl='" +:+ site_id c +:+ "' />" +:+ nl +:+
  "            </credentials>" +:+ nl +:+
  "        </tsRequest>" +:+ nl +:+
  "        ".

Definition auth_url (c : TableauServerMCP) : string :=
  server_url c +:+ "/api/3.19/auth/signin".

Definition signin_request (c : TableauServerMCP) : Request :=
  {| method := "POST";
     url := auth_url c;
     data := Some (signin_xml c);
     headers := [("Content-Type", Some "application/xml")];
     proxy := proxy_arg c |}.

Definition authenticate : M bool :=
  c <- self ;;
  if negb (truthy (token_name c)) || negb (truthy (token_value c)) then
    raise (ValueError
             "TABLEAU_TOKEN_NAME and TABLEAU_TOKEN_VALUE must be set in .env file")
  else
    try_except
      (response <- request "post" (signin_request c) ;;
       if (status response =? 200)%Z then
         root <- ET_fromstring (JStr (text response)) ;;
         match find_desc root "credentials" with
         | Some credentials =>
             assign (with_auth_token (get credentials "token")) ;;
             match find_child credentials "site" with
             | Some site => assign (with_site_uuid (get site "id"))
             | None => ret tt
             end
         | None => ret tt
         end ;;
         ret true
       else
         ret false)
      Exception
      (fun e => ret false).

Definition api_request (c : TableauServerMCP) (endpoint method : string)
    (data : option string) : Request :=
  {| method := method;
     url := urljoin (server_url c)
              ("/api/3.19/sites/" +:+ fmt (site_uuid c) +:+ "/" +:+ endpoint);
     data := data;
     headers :=
       [("X-Tableau-Auth", auth_token c);
        ("Content-Type",
         Some (if truthy data then "application/xml" else "application/json"))];
     proxy := proxy_arg c |}.

(** The result is [None] ([JNull]), the body as a [str] ([JStr]) or the
    decoded JSON body. *)
Definition make_api_request (endpoint method : string) (data : option string)
  : M Json :=
  c <- self ;;
  (if negb (truthy (auth_token c)) then _ <- authenticate ;; ret tt else ret tt) ;;
  c <- self ;;
  try_except
    (response <- request "request" (api_request c endpoint method data) ;;
     if (status response =? 200)%Z || (status response =? 201)%Z then
       if py_in "xml" (content_type response) then
         ret (JStr (text response))
       else
         lift (json response)
     else
       ret JNull)
    Exception
    (fun e => ret JNull).

(** The list is built inside the [try]; only [ET.fromstring] can raise
    there, before the first [append], so the list returned after a caught
    [ParseError] is the empty one. *)
Definition list_workbooks : M (list Workbook.t) :=
  xml_response <- make_api_request "workbooks" "GET" None ;;
  if negb (truthy_json xml_response) then ret []
  else
    try_except
      (root <- ET_fromstring xml_response ;;
       ret (map workbook_record (findall_desc root "workbook")))
      is_ParseError
      (fun e => ret []).

Definition list_data_sources : M (list DataSource.t) :=
  xml_response <- make_api_request "datasources" "GET" None ;;
  if negb (truthy_json xml_response) then ret []
  else
    try_except
      (root <- ET_fromstring xml_response ;;
       ret (map datasource_record (findall_desc root "datasource")))
      is_ParseError
      (fun e => ret []).

Definition get_workbook_details (workbook_id : string)
  : M (option WorkbookDetails.t) :=
  xml_response <- make_api_request ("workbooks/" +:+ workbook_id) "GET" None ;;
  if negb (truthy_json xml_response) then ret None
  else
    try_except
      (root <- ET_fromstring xml_response ;;
       match find_desc root "workbook" with
       | Some workbook =>
           views_response <-
             make_api_request ("workbooks/" +:+ workbook_id +:+ "/views") "GET" None ;;
           views <-
             (if truthy_json views_response then
                views_root <- ET_fromstring views_response ;;
                ret (map view_record (findall_desc views_root "view"))
              else ret []) ;;
           ret (Some {| WorkbookDetails.id := get workbook "id";
                        WorkbookDetails.name := get workbook "name";
                        WorkbookDetails.description :=
                          get_default workbook "description" "";
                        WorkbookDetails.size := get_default workbook "size" "0";
                        WorkbookDetails.views := views;
                        WorkbookDetails.viewCount := length views |})
       | None => ret None
       end)
      is_ParseError
      (fun e => ret None).

(** ** The tool dispatcher *)

(** One entry of [workbook_list]. *)
Definition workbook_entry (wb : Workbook.t) : string :=
  "üìä **" +:+ fmt (Workbook.name wb) +:+ "**" +:+ nl +:+
  "   Project: " +:+ fmt (Workbook.project wb) +:+ nl +:+
  "   Owner: " +:+ fmt (Workbook.owner wb) +:+ nl +:+
  "   Updated: " +:+ fmt (Workbook.updatedAt wb) +:+ nl +:+
  "   Size: " +:+ Workbook.size wb +:+ " bytes" +:+ nl.

(** One entry of [ds_list]. *)
Definition data_source_entry (ds : DataSource.t) : string :=
  "üóÑÔ∏è **" +:+ fmt (DataSource.name ds) +:+ "**" +:+ nl +:+
  "   Type: " +:+ fmt (DataSource.type ds) +:+ nl +:+
  "   Project: " +:+ fmt (DataSource.project ds) +:+ nl +:+
  "   Updated: " +:+ fmt (DataSource.updatedAt ds) +:+ nl.

(** One entry of [views_list]. *)
Definition view_entry (view : View.t) : string :=
  "   üìã " +:+ fmt (View.name view).

(** [x.lower()] where [x] may be [None]. *)
Definition lower_of (x : option string) : Outcome string :=
  match x with
  | Some s => Return (lower s)
  | None => Raise (AttributeError "'NoneType' object has no attribute 'lower'")
  end.

(** [next((wb for wb in workbooks if wb['name'].lower() ==
    workbook_name.lower()), None)]. *)
Fixpoint next_match (workbooks : list Workbook.t) (workbook_name : string)
  : Outcome (option Workbook.t) :=
  match workbooks with
  | [] => Return None
  | wb :: rest =>
      match lower_of (Workbook.name wb) with
      | Return n =>
          if String.eqb n (lower workbook_name) then Return (Some wb)
          else next_match rest workbook_name
      | Raise e => Raise e
      end
  end.

(** [[x for x in l if cond(x)]] for a condition that may raise. *)
Fixpoint comprehension {A} (cond : A -> Outcome bool) (l : list A)
  : Outcome (list A) :=
  match l with
  | [] => Return []
  | x :: rest =>
      match cond x with
      | Return b =>
          match comprehension cond rest with
          | Return xs => Return (if b then x :: xs else xs)
          | Raise e => Raise e
          end
      | Raise e => Raise e
      end
  end.

(** [query in name.lower() or query in description.lower()]. *)
Definition matches (query : string) (name : option string) (description : string)
  : Outcome bool :=
  match lower_of name with
  | Return n => Return (py_in query n || py_in query (lower description))
  | Raise e => Raise e
  end.

(** The [results] list of [search_content]. *)
Definition search_results (query : string)
    (matching_workbooks : list Workbook.t)
    (matching_data_sources : list DataSource.t) : list string :=
  (match matching_workbooks with
   | [] => []
   | _ :: _ =>
       ("**üìä Workbooks matching '" +:+ query +:+ "':**")
       :: map (fun wb =>
                 "   ‚Ä¢ " +:+ fmt (Workbook.name wb) +:+
                 " (Project: " +:+ fmt (Workbook.project wb) +:+ ")")
              matching_workbooks
   end)
  ++
  (match matching_data_sources with
   | [] => []
   | _ :: _ =>
       (nl +:+ "**üóÑÔ∏è Data Sources matching '" +:+ query +:+ "':**")
       :: map (fun ds =>
                 "   ‚Ä¢ " +:+ fmt (DataSource.name ds) +:+
                 " (Type: " +:+ fmt (DataSource.type ds) +:+ ")")
              matching_data_sources
   end)
  ++
  (match matching_workbooks, matching_data_sources with
   | [], [] => ["No content found matching '" +:+ query +:+ "'"]
   | _, _ => []
   end).

(** ['Present' if tableau_client.auth_token else 'Missing']. *)
Definition token_presence (c : TableauServerMCP) : string :=
  if truthy (auth_token c) then "Present" else "Missing".

(** [get_workbook_details], from [if workbook_id:] on: what the branch
    does once [workbook_id] has its final value. *)
Definition details_by_id (workbook_id : option string) : M CallToolResult.t :=
  match workbook_id with
  | Some (String _ _ as workbook_id) =>
      details <- get_workbook_details workbook_id ;;
      match details with
      | Some details =>
          let views_list :=
            String.concat nl (map view_entry (WorkbookDetails.views details)) in
          ret (text_result
                 ("üìä **Workbook Details: " +:+
                  fmt (WorkbookDetails.name details) +:+ "**" +:+ nl +:+ nl +:+
                  "**Worksheets & Dashboards (" +:+
                  str_of_nat (WorkbookDetails.viewCount details) +:+ "):**" +:+
                  nl +:+ views_list +:+ nl +:+ nl +:+
                  "**Size:** " +:+ WorkbookDetails.size details +:+ " bytes" +:+ nl +:+
                  "**Description:** " +:+ WorkbookDetails.description details)
                 false)
      | None =>
          ret (text_result "‚ùå Unable to retrieve workbook details." true)
      end
  | _ =>
      ret (text_result
             "‚ùå Please provide either workbook_name or workbook_id." true)
  end.

(** [if not tableau_client.session: await
    tableau_client.initialize_session()]. *)
Definition ensure_session : M unit :=
  c <- self ;;
  match session c with
  | None => initialize_session
  | Some _ => ret tt
  end.

(** The branches of [handle_call_tool], in source order. The values of
    [arguments] are strings: the tool schemas declare [workbook_name],
    [workbook_id] and [query] with type [string]. *)

(** [if name == "test_connection":] *)
Definition test_connection_branch : M CallToolResult.t :=
  success <- authenticate ;;
  if success then
    c <- self ;;
    ret (text_result
           ("‚úÖ Successfully connected to " +:+ server_url c +:+ nl +:+
            "Site: " +:+ site_id c +:+ nl +:+
            "Auth Token: " +:+ token_presence c)
           false)
  else
    ret (text_result
           "‚ùå Failed to connect to Tableau Server. Check your credentials and network connection."
           true).

(** [elif name == "list_workbooks":] *)
Definition list_workbooks_branch : M CallToolResult.t :=
  workbooks <- list_workbooks ;;
  match workbooks with
  | _ :: _ =>
      let workbook_list := String.concat nl (map workbook_entry workbooks) in
      ret (text_result
             ("Found " +:+ str_of_nat (length workbooks) +:+
              " workbooks on tableau.nordstrom.com:" +:+ nl +:+ nl +:+
              workbook_list)
             false)
  | [] =>
      ret (text_result "No workbooks found or unable to retrieve workbooks." false)
  end.

(** [elif name == "list_data_sources":] *)
Definition list_data_sources_branch : M CallToolResult.t :=
  data_sources <- list_data_sources ;;
  match data_sources with
  | _ :: _ =>
      let ds_list := String.concat nl (map data_source_entry data_sources) in
      ret (text_result
             ("Found " +:+ str_of_nat (length data_sources) +:+
              " data sources:" +:+ nl +:+ nl +:+ ds_list)
             false)
  | [] =>
      ret (text_result
             "No data sources found or unable to retrieve data sources." false)
  end.

(** [elif name == "get_workbook_details":] *)
Definition get_workbook_details_branch (arguments : gmap string string)
  : M CallToolResult.t :=
  let workbook_name := arguments !! "workbook_name" in
  let workbook_id := arguments !! "workbook_id" in
  if truthy workbook_name && negb (truthy workbook_id) then
    workbooks <- list_workbooks ;;
    matching_workbook <- lift (next_match workbooks (fmt workbook_name)) ;;
    match matching_workbook with
    | Some wb => details_by_id (Workbook.id wb)
    | None =>
        ret (text_result
               ("‚ùå Workbook '" +:+ fmt workbook_name +:+ "' not found.") true)
    end
  else
    details_by_id workbook_id.

(** [elif name == "search_content":] *)
Definition search_content_branch (arguments : gmap string string)
  : M CallToolResult.t :=
  let query := lower (default "" (arguments !! "query")) in
  workbooks <- list_workbooks ;;
  data_sources <- list_data_sources ;;
  matching_workbooks <-
    lift (comprehension
            (fun wb => matches query (Workbook.name wb) (Workbook.description wb))
            workbooks) ;;
  matching_data_sources <-
    lift (comprehension
            (fun ds => matches query (DataSource.name ds) (DataSource.description ds))
            data_sources) ;;
  let results := search_results query matching_workbooks matching_data_sources in
  ret (text_result (String.concat nl results) false).

(** The [try] block of [handle_call_tool]. *)
Definition dispatch (name : string) (arguments : gmap string string)
  : M CallToolResult.t :=
  ensure_session ;;
  if String.eqb name "test_connection" then test_connection_branch
  else if String.eqb name "list_workbooks" then list_workbooks_branch
  else if String.eqb name "list_data_sources" then list_data_sources_branch
  else if String.eqb name "get_workbook_details" then
    get_workbook_details_branch arguments
  else if String.eqb name "search_content" then search_content_branch arguments
  else ret (text_result ("Unknown tool: " +:+ name) true).

(** The [except Exception] clause that closes [handle_call_tool]. *)
Definition guarded (name : string) (body : M CallToolResult.t) : M CallToolResult.t :=
  try_except
    body
    Exception
    (fun e => ret (text_result ("Error executing " +:+ name +:+ ": " +:+ str_exn e) true)).

Definition handle_call_tool (name : string) (arguments : gmap string string)
  : M CallToolResult.t :=
  guarded name (dispatch name arguments).

End Client.

Arguments ET_fromstring fromstring v w : simpl never.

(** ** The tool catalogue *)

Module Property.
Record t : Type := {
  type : string;
  description : string
}.
End Property.

Module InputSchema.
Record t : Type := {
  type : string;
  properties : list (string * Property.t);
  required : list string
}.
End InputSchema.

Module Tool.
Record t : Type := {
  name : string;
  description : string;
  inputSchema : InputSchema.t
}.
End Tool.

Module ListToolsResult.
Record t : Type := {
  tools : list Tool.t
}.
End ListToolsResult.

(** [handle_list_tools]: it reads no state and always answers the same. *)
Definition handle_list_tools : ListToolsResult.t :=
  {| ListToolsResult.tools :=
       [ {| Tool.name := "list_workbooks";
            Tool.description := "List all workbooks on Nordstrom Tableau Server";
            Tool.inputSchema :=
              {| InputSchema.type := "object";
                 InputSchema.properties := [];
                 InputSchema.required := [] |} |};
         {| Tool.name := "list_data_sources";
            Tool.description := "List all data sources on Nordstrom Tableau Server";
            Tool.inputSchema :=
              {| InputSchema.type := "object";
                 InputSchema.properties := [];
                 InputSchema.required := [] |} |};
         {| Tool.name := "get_workbook_details";
            Tool.description :=
              "Get detailed information about a specific workbook including worksheets and dashboards";
            Tool.inputSchema :=
              {| InputSchema.type := "object";
                 InputSchema.properties :=
                   [ ("workbook_name",
                      {| Property.type := "string";
                         Property.description := "Name of the workbook to analyze" |});
                     ("workbook_id",
                      {| Property.type := "string";
                         Property.description :=
                           "ID of the workbook (alternative to name)" |}) ];
                 InputSchema.required := [] |} |};
         {| Tool.name := "search_content";
            Tool.description :=
              "Search for workbooks and data sources by name or description";
            Tool.inputSchema :=
              {| InputSchema.type := "object";
                 InputSchema.properties :=
                   [ ("query",
                      {| Property.type := "string";
                         Property.description :=
                           "Search term to look for in workbook/data source names" |}) ];
                 InputSchema.required := ["query"] |} |};
         {| Tool.name := "test_connection";
            Tool.description := "Test connection to Nordstrom Tableau Server";
            Tool.inputSchema :=
              {| InputSchema.type := "object";
                 InputSchema.properties := [];
                 InputSchema.required := [] |} |} ] |}.

(** ** Test doubles

    A parser given by a table of known documents, [urljoin] for a base URL
    without a path, and servers that answer by request number. *)

Fixpoint fromstring_of (table : list (string * Element)) (s : string) : Parsed :=
  match table with
  | [] => Malformed "syntax error"
  | (doc, root) :: rest =>
      if String.eqb doc s then Tree root else fromstring_of rest s
  end.

Definition urljoin_origin (base path : string) : string := base +:+ path.

Definition xml_reply (body : string) : Outcome Response :=
  Return {| status := 200; content_type := "application/xml"; text := body;
            json := Raise (ClientError "unexpected mimetype") |}.

(** The [n]-th request gets the [n]-th reply; later ones fail. *)
Definition scripted (replies : list (Outcome Response))
  : nat -> ClientSession -> Request -> Outcome Response :=
  fun n _ _ => nth n replies (Raise (ClientError "Cannot connect to host")).

(** A client with credentials whose HTTP session is open. *)
Definition ready_client : TableauServerMCP :=
  with_session (Some {| trust_env := false |})
    (init "https://tableau.example.com" "analytics" "" "localhost,127.0.0.1"
          (Some "mcp-token") (Some "s3cret")).

Definition ready : World := {| client := ready_client; sent := [] |}.

Definition signin_body : string :=
  "<tsResponse><credentials token='T1'><site id='S1'/></credentials></tsResponse>".

Definition signin_tree : Element :=
  Elem "tsResponse" []
    [Elem "credentials" [("token", "T1")] [Elem "site" [("id", "S1")] []]].

Definition token_only_body : string :=
  "<tsResponse><credentials token='T1'/></tsResponse>".

Definition token_only_tree : Element :=
  Elem "tsResponse" [] [Elem "credentials" [("token", "T1")] []].

Definition no_token_body : string :=
  "<tsResponse><credentials><site id='S1'/></credentials></tsResponse>".

Definition no_token_tree : Element :=
  Elem "tsResponse" [] [Elem "credentials" [] [Elem "site" [("id", "S1")] []]].

Definition workbooks_body : string :=
  "<tsResponse><workbooks><workbook id='wb1' name='Orders'/></workbooks></tsResponse>".

Definition workbooks_tree : Element :=
  Elem "tsResponse" []
    [Elem "workbooks" [] [Elem "workbook" [("id", "wb1"); ("name", "Orders")] []]].

Definition rich_workbook_body : string :=
  "<tsResponse><workbook id='wb1' name='Orders' createdAt='2024-01-01T00:00:00Z' updatedAt='2024-02-01T00:00:00Z'><project name='Finance'/><owner name='alice'/></workbook></tsResponse>".

Definition rich_workbook : Element :=
  Elem "workbook"
    [("id", "wb1"); ("name", "Orders");
     ("createdAt", "2024-01-01T00:00:00Z"); ("updatedAt", "2024-02-01T00:00:00Z")]
    [Elem "project" [("name", "Finance")] []; Elem "owner" [("name", "alice")] []].

Definition bare_workbook : Element :=
  Elem "workbook" [("id", "wb1"); ("name", "Orders")] [].

Definition views_body : string :=
  "<tsResponse><views><view id='v1' name='Overview' contentUrl='Orders/sheets/Overview' viewUrlName='Overview'/><view id='v2' name='Trend'/></views></tsResponse>".

Definition views_tree : Element :=
  Elem "tsResponse" []
    [Elem "views" []
       [Elem "view"
          [("id", "v1"); ("name", "Overview");
           ("contentUrl", "Orders/sheets/Overview"); ("viewUrlName", "Overview")] [];
        Elem "view" [("id", "v2"); ("name", "Trend")] []]].

(** A body the parser rejects. *)
Definition truncated_body : string := "<tsResponse><workbooks>".

Definition sales_body : string :=
  "<tsResponse><workbooks><workbook id='wb-a' name='Sales Report'/><workbook id='wb-b' name='sales report copy' description='Quarterly SALES'/></workbooks></tsResponse>".

Definition sales_tree : Element :=
  Elem "tsResponse" []
    [Elem "workbooks" []
       [Elem "workbook" [("id", "wb-a"); ("name", "Sales Report")] [];
        Elem "workbook"
          [("id", "wb-b"); ("name", "sales report copy");
           ("description", "Quarterly SALES")] []]].

Definition datasources_body : string :=
  "<tsResponse><datasources><datasource id='ds-a' name='Inventory' type='sqlserver'/><datasource id='ds-b' name='Retail Sales' type='hyper'/></datasources></tsResponse>".

Definition datasources_tree : Element :=
  Elem "tsResponse" []
    [Elem "datasources" []
       [Elem "datasource" [("id", "ds-a"); ("name", "Inventory"); ("type", "sqlserver")] [];
        Elem "datasource" [("id", "ds-b"); ("name", "Retail Sales"); ("type", "hyper")] []]].

(** The parser of the scenarios. *)
Definition documents : string -> Parsed :=
  fromstring_of
    [(signin_body, signin_tree);
     (token_only_body, token_only_tree);
     (no_token_body, no_token_tree);
     (workbooks_body, workbooks_tree);
     (rich_workbook_body, Elem "tsResponse" [] [rich_workbook]);
     (views_body, views_tree);
     (sales_body, sales_tree);
     (datasources_body, datasources_tree)].

(** Sign-in, then the workbook list. *)
Definition catalog_server : nat -> ClientSession -> Request -> Outcome Response :=
  scripted [xml_reply signin_body; xml_reply workbooks_body].

(** Sign-in, then a body cut short. *)
Definition broken_server : nat -> ClientSession -> Request -> Outcome Response :=
  scripted [xml_reply signin_body; xml_reply truncated_body].

(** Sign-in, one workbook with all its fields, its views. *)
Definition details_server : nat -> ClientSession -> Request -> Outcome Response :=
  scripted [xml_reply signin_body; xml_reply rich_workbook_body; xml_reply views_body].

(** The same, the workbook reduced to its id and name. *)
Definition bare_details_server : nat -> ClientSession -> Request -> Outcome Response :=
  scripted [xml_reply signin_body; xml_reply workbooks_body; xml_reply views_body].

(** Sign-in, the two sales workbooks, the data sources. *)
Definition sales_server : nat -> ClientSession -> Request -> Outcome Response :=
  scripted [xml_reply signin_body; xml_reply sales_body; xml_reply datasources_body].

Definition sales_report : Workbook.t :=
  {| Workbook.id := Some "wb-a"; Workbook.name := Some "Sales Report";
     Workbook.description := ""; Workbook.size := "0";
     Workbook.createdAt := None; Workbook.updatedAt := None;
     Workbook.project := Some "Unknown"; Workbook.owner := Some "Unknown" |}.

Definition sales_report_copy : Workbook.t :=
  {| Workbook.id := Some "wb-b"; Workbook.name := Some "sales report copy";
     Workbook.description := "Quarterly SALES"; Workbook.size := "0";
     Workbook.createdAt := None; Workbook.updatedAt := None;
     Workbook.project := Some "Unknown"; Workbook.owner := Some "Unknown" |}.

Definition inventory : DataSource.t :=
  {| DataSource.id := Some "ds-a"; DataSource.name := Some "Inventory";
     DataSource.description := ""; DataSource.type := Some "sqlserver";
     DataSource.createdAt := None; DataSource.updatedAt := None;
     DataSource.project := Some "Unknown" |}.

Definition retail_sales : DataSource.t :=
  {| DataSource.id := Some "ds-b"; DataSource.name := Some "Retail Sales";
     DataSource.description := ""; DataSource.type := Some "hyper";
     DataSource.createdAt := None; DataSource.updatedAt := None;
     DataSource.project := Some "Unknown" |}.

Definition orders_views : list View.t :=
  [ {| View.id := Some "v1"; View.name := Some "Overview";
       View.contentUrl := Some "Orders/sheets/Overview";
       View.viewUrlName := Some "Overview" |};
    {| View.id := Some "v2"; View.name := Some "Trend";
       View.contentUrl := None; View.viewUrlName := None |} ].

Definition orders_details : WorkbookDetails.t :=
  {| WorkbookDetails.id := Some "wb1"; WorkbookDetails.name := Some "Orders";
     WorkbookDetails.description := ""; WorkbookDetails.size := "0";
     WorkbookDetails.views := orders_views; WorkbookDetails.viewCount := 2 |}.

(** A client without credentials. *)
Definition unconfigured : World :=
  {| client := init "https://tableau.example.com" "analytics" "" "localhost,127.0.0.1"
                    None None;
     sent := [] |}.

(** A client that has signed in: token T1, site S1. *)
Definition signed_in : World :=
  {| client := with_site_uuid (Some "S1") (with_auth_token (Some "T1") ready_client);
     sent := [] |}.

(** An answer that rejects the request. *)
Definition unauthorized : Outcome Response :=
  Return {| status := 401; content_type := "application/xml";
            text := "<tsResponse><error code='401002'/></tsResponse>";
            json := Raise (ClientError "unexpected mimetype") |}.

(** A 200 answer declared as JSON that decodes to [j]. *)
Definition json_reply (j : Json) : Outcome Response :=
  Return {| status := 200; content_type := "application/json"; text := "";
            json := Return j |}.

Definition orphan_body : string :=
  "<tsResponse><workbooks><workbook name='Orphan'/></workbooks></tsResponse>".

Definition orphan_tree : Element :=
  Elem "tsResponse" [] [Elem "workbooks" [] [Elem "workbook" [("name", "Orphan")] []]].

Definition bare_datasource_body : string :=
  "<tsResponse><datasources><datasource id='ds1' name='Stock'/></datasources></tsResponse>".

Definition bare_datasource_tree : Element :=
  Elem "tsResponse" []
    [Elem "datasources" [] [Elem "datasource" [("id", "ds1"); ("name", "Stock")] []]].

(** A client with a proxy and an empty exemption list, not yet initialised. *)
Definition proxied : World :=
  {| client := init "https://tableau.example.com" "analytics"
                    "http://gateway.zscaler.net:80" ""
                    (Some "mcp-token") (Some "s3cret");
     sent := [] |}.

(** Every sign-in is rejected; the catalogue answers all the same. *)
Definition rejecting_server : nat -> ClientSession -> Request -> Outcome Response :=
  scripted [unauthorized; xml_reply sales_body;
            unauthorized; xml_reply rich_workbook_body;
            unauthorized; xml_reply views_body].

(** Sign-in, then the workbook without an id. *)
Definition orphan_server : nat -> ClientSession -> Request -> Outcome Response :=
  scripted [xml_reply signin_body; xml_reply orphan_body].

(** Sign-in, the workbook, then a views body cut short. *)
Definition broken_views_server : nat -> ClientSession -> Request -> Outcome Response :=
  scripted [xml_reply signin_body; xml_reply rich_workbook_body;
            xml_reply truncated_body].

(** Sign-in, then a listing answered in JSON. *)
Definition json_server : nat -> ClientSession -> Request -> Outcome Response :=
  scripted [xml_reply signin_body; json_reply (JDict [("workbooks", JList [])])].


(** A second table of documents. *)
Definition more_documents : string -> Parsed :=
  fromstring_of
    [(signin_body, signin_tree);
     (orphan_body, orphan_tree);
     (bare_datasource_body, bare_datasource_tree);
     (rich_workbook_body, Elem "tsResponse" [] [rich_workbook]);
     (sales_body, sales_tree);
     (datasources_body, datasources_tree)].

Definition unnamed_first_body : string :=
  "<tsResponse><workbooks><workbook id='wb0'/><workbook id='wb-a' name='Sales Report'/></workbooks></tsResponse>".

Definition unnamed_first_tree : Element :=
  Elem "tsResponse" []
    [Elem "workbooks" []
       [Elem "workbook" [("id", "wb0")] [];
        Elem "workbook" [("id", "wb-a"); ("name", "Sales Report")] []]].

Definition empty_named_body : string :=
  "<tsResponse><workbooks><workbook id='wb-e' name=''/></workbooks></tsResponse>".

Definition empty_named_tree : Element :=
  Elem "tsResponse" []
    [Elem "workbooks" [] [Elem "workbook" [("id", "wb-e"); ("name", "")] []]].

Definition copy_first_body : string :=
  "<tsResponse><workbooks><workbook id='wb-b' name='sales report copy' description='Quarterly SALES'/><workbook id='wb-a' name='Sales Report'/></workbooks></tsResponse>".

Definition copy_first_tree : Element :=
  Elem "tsResponse" []
    [Elem "workbooks" []
       [Elem "workbook"
          [("id", "wb-b"); ("name", "sales report copy");
           ("description", "Quarterly SALES")] [];
        Elem "workbook" [("id", "wb-a"); ("name", "Sales Report")] []]].

Definition empty_token_body : string :=
  "<tsResponse><credentials token=''><site id='S1'/></credentials></tsResponse>".

Definition empty_token_tree : Element :=
  Elem "tsResponse" []
    [Elem "credentials" [("token", "")] [Elem "site" [("id", "S1")] []]].

(** A third table of documents. *)
Definition odd_documents : string -> Parsed :=
  fromstring_of
    [(signin_body, signin_tree);
     (empty_token_body, empty_token_tree);
     (unnamed_first_body, unnamed_first_tree);
     (empty_named_body, empty_named_tree);
     (copy_first_body, copy_first_tree);
     (sales_body, sales_tree);
     (rich_workbook_body, Elem "tsResponse" [] [rich_workbook]);
     (views_body, views_tree);
     (datasources_body, datasources_tree)].

(** A 200 answer declared as JSON whose body is the JSON text of a list. *)
Definition json_list_reply : Outcome Response :=
  Return {| status := 200; content_type := "application/json"; text := "[1]";
            json := Return (JList [JInt 1]) |}.

(** Sign-in, then a listing answered as a JSON list. *)
Definition json_list_server : nat -> ClientSession -> Request -> Outcome Response :=
  scripted [xml_reply signin_body; json_list_reply].

(** Sign-in, a listing that begins with a workbook without a name, the
    data sources. *)
Definition unnamed_first_server : nat -> ClientSession -> Request -> Outcome Response :=
  scripted [xml_reply signin_body; xml_reply unnamed_first_body;
            xml_reply datasources_body].



(** Every sign-in is accepted with an empty token; the catalogue answers. *)
Definition empty_token_server : nat -> ClientSession -> Request -> Outcome Response :=
  scripted [xml_reply empty_token_body; xml_reply sales_body;
            xml_reply empty_token_body; xml_reply rich_workbook_body;
            xml_reply empty_token_body; xml_reply views_body].

(** ** Specification vocabulary *)

(** Authentication is all-or-nothing: token and site UUID are both set or
    both unset. *)
Definition all_or_nothing (c : TableauServerMCP) : Prop :=
  is_set (auth_token c) = is_set (site_uuid c).

(** A sign-in answer is complete when, read as the authenticator reads it, it
    either carries no [credentials] element or carries both a token and a
    site with an id. *)
Definition complete_signin (fromstring : string -> Parsed) (r : Response) : Prop :=
  forall root credentials,
    status r = 200%Z ->
    fromstring (text r) = Tree root ->
    find_desc root "credentials" = Some credentials ->
    is_set (get credentials "token") = true /\
    exists site, find_child credentials "site" = Some site /\
                 is_set (get site "id") = true.

(** A server all of whose answers are complete in that sense. *)
Definition complete_server (fromstring : string -> Parsed)
    (net : nat -> ClientSession -> Request -> Outcome Response) : Prop :=
  forall n s req r, net n s req = Return r -> complete_signin fromstring r.

(** A payload from which no list can be read: nothing, an empty body, or a
    body that is not well-formed XML. *)
Definition empty_or_malformed (fromstring : string -> Parsed) (p : Json) : Prop :=
  p = JNull \/ p = JStr "" \/
  exists body msg, p = JStr body /\ fromstring body = Malformed msg.

(** The views a payload lists: none when there is no payload, the [view]
    elements of a well-formed body otherwise. *)
Definition views_listed (fromstring : string -> Parsed) (p : Json)
    (views : list View.t) : Prop :=
  (truthy_json p = false /\ views = []) \/
  (exists body root,
      p = JStr body /\ body <> "" /\ fromstring body = Tree root /\
      views = map view_record (findall_desc root "view")).

(** The workbook lookup fails: no payload, a body that is not well-formed, or
    a document without a [workbook] element. *)
Definition lookup_failed (fromstring : string -> Parsed) (p : Json) : Prop :=
  truthy_json p = false \/
  (exists body,
      p = JStr body /\
      ((exists msg, fromstring body = Malformed msg) \/
       (exists root, fromstring body = Tree root /\ find_desc root "workbook" = None))).

Section CaseApart.

(** [str.lower]. *)
Variable lower : string -> string.

(** [wb] is named [workbook_name], letter case apart. *)
Definition named_like (workbook_name : string) (wb : Workbook.t) : Prop :=
  exists n, Workbook.name wb = Some n /\ lower n = lower workbook_name.

(** [wb] has a name, and it is another one, letter case apart. *)
Definition named_otherwise (workbook_name : string) (wb : Workbook.t) : Prop :=
  exists n, Workbook.name wb = Some n /\ lower n <> lower workbook_name.

(** [text] contains [query], letter case apart. *)
Definition contains_ci (query text : string) : Prop :=
  exists pre post, lower text = pre +:+ lower query +:+ post.

(** The search criterion: the name or the description contains the query. *)
Definition hit (query : string) (name : option string) (description : string) : Prop :=
  (exists n, name = Some n /\ contains_ci query n) \/ contains_ci query description.

(** The criterion as the comprehension evaluates it on a named record. *)
Definition hit_b (query : string) (name : option string) (description : string) : bool :=
  match name with
  | Some n => py_in (lower query) (lower n) || py_in (lower query) (lower description)
  | None => false
  end.

End CaseApart.

(** The token value a sign-in document offers, if any. *)
Definition offered_token (root : Element) : option string :=
  match find_desc root "credentials" with
  | Some credentials => get credentials "token"
  | None => None
  end.

(** What a successful sign-in writes into the client, given the parsed
    answer. *)
Definition signin_effect (root : Element) (c : TableauServerMCP) : TableauServerMCP :=
  match find_desc root "credentials" with
  | Some credentials =>
      let c1 := with_auth_token (get credentials "token") c in
      match find_child credentials "site" with
      | Some site => with_site_uuid (get site "id") c1
      | None => c1
      end
  | None => c
  end.

Arguments signin_request c : simpl never.
Arguments api_request urljoin c endpoint method data : simpl never.

(** [m] keeps [P]: whatever [m] does, a client that satisfies [P] before
    satisfies it after, whether [m] returns or raises. *)
Definition keeps {A} (P : TableauServerMCP -> Prop) (m : M A) : Prop :=
  forall w, P (client w) -> P (client (snd (m w))).

(** Every result [m] returns is a single text item. *)
Definition returns_text (m : M CallToolResult.t) : Prop :=
  forall w r w', m w = (Return r, w') -> exists text isError, r = text_result text isError.

(** [m] appends at most [n] requests to the log and rewrites none. *)
Definition sends_at_most {A} (n : nat) (m : M A) : Prop :=
  forall w, exists extra,
    sent (snd (m w)) = sent w ++ extra /\ (length extra <= n)%nat.

(** The configuration read from the environment is the same in both
    clients. *)
Definition same_config (c c' : TableauServerMCP) : Prop :=
  server_url c' = server_url c /\ site_id c' = site_id c /\
  token_name c' = token_name c /\ token_value c' = token_value c /\
  proxy_url c' = proxy_url c /\ no_proxy c' = no_proxy c.

(** The names the catalogue advertises. *)
Definition advertised : list string :=
  map Tool.name (ListToolsResult.tools handle_list_tools).

(** The text of a result that is a single text item. *)
Definition result_text (r : CallToolResult.t) : string :=
  match CallToolResult.content r with
  | [item] => TextContent.text item
  | _ => ""
  end.





(** What a search reports: the matching workbooks under their heading, then
    the matching data sources under theirs, each with one line per record;
    the "No content found" line alone when there is no match at all. *)
Definition search_report (query : string) (matching_workbooks : list Workbook.t)
    (matching_data_sources : list DataSource.t) : list string :=
  match matching_workbooks, matching_data_sources with
  | [], [] => ["No content found matching '" +:+ query +:+ "'"]
  | _, _ =>
      (match matching_workbooks with
       | [] => []
       | _ :: _ =>
           ("**üìä Workbooks matching '" +:+ query +:+ "':**")
           :: map (fun wb =>
                     "   ‚Ä¢ " +:+ fmt (Workbook.name wb) +:+
                     " (Project: " +:+ fmt (Workbook.project wb) +:+ ")")
                  matching_workbooks
       end)
      ++
      (match matching_data_sources with
       | [] => []
       | _ :: _ =>
           (nl +:+ "**üóÑÔ∏è Data Sources matching '" +:+ query +:+ "':**")
           :: map (fun ds =>
                     "   ‚Ä¢ " +:+ fmt (DataSource.name ds) +:+
                     " (Type: " +:+ fmt (DataSource.type ds) +:+ ")")
                  matching_data_sources
       end)
  end.

(** An answer from which no list can be read: a transport failure, a status
    other than 200 and 201, or a body declared as XML that is empty or not
    well-formed. *)
Definition unreadable_answer (fromstring : string -> Parsed)
    (answer : Outcome Response) : Prop :=
  match answer with
  | Raise _ => True
  | Return r =>
      (status r <> 200%Z /\ status r <> 201%Z) \/
      (py_in "xml" (content_type r) = true /\
       (text r = "" \/ exists msg, fromstring (text r) = Malformed msg))
  end.

(** [t] is not the answer to an unknown tool. *)
Definition not_unknown (t : string) : Prop :=
  forall rest, t <> "Unknown tool: " +:+ rest.

(** Every result [m] returns carries a text that satisfies [Q]. *)
Definition answers_with (Q : string -> Prop) (m : M CallToolResult.t) : Prop :=
  forall w r w', m w = (Return r, w') -> Q (result_text r).

(** * Properties *)

(** ** Coroutines *)

Section Keeps.

Context {A B : Type} (P : TableauServerMCP -> Prop).

Lemma keeps_ret (a : A) : keeps P (ret a).
Proof. intros w H; exact H. Qed.

Lemma keeps_raise (e : Exn) : keeps P (@raise A e).
Proof. intros w H; exact H. Qed.

Lemma keeps_lift (o : Outcome A) : keeps P (lift o).
Proof. intros w H; exact H. Qed.

Lemma keeps_self : keeps P self.
Proof. intros w H; exact H. Qed.

Lemma keeps_bind (m : M A) (k : A -> M B) :
  keeps P m -> (forall a, keeps P (k a)) -> keeps P (bind m k).
Proof.
  intros Hm Hk w H. unfold bind. specialize (Hm w H).
  destruct (m w) as [[a | e] w1]; simpl in *.
  - now apply Hk.
  - exact Hm.
Qed.

Lemma keeps_try (body : M A) (catches : Exn -> bool) (handler : Exn -> M A) :
  keeps P body -> (forall e, keeps P (handler e)) ->
  keeps P (try_except body catches handler).
Proof.
  intros Hm Hh w H. unfold try_except. specialize (Hm w H).
  destruct (body w) as [[a | e] w1]; simpl in *.
  - exact Hm.
  - destruct (catches e); simpl; [now apply Hh | exact Hm].
Qed.

End Keeps.

Lemma bind_return {A B} (m : M A) (k : A -> M B) (w w1 : World) (a : A) :
  m w = (Return a, w1) -> bind m k w = k a w1.
Proof. intros H. unfold bind. now rewrite H. Qed.

Lemma bind_raise {A B} (m : M A) (k : A -> M B) (w w1 : World) (e : Exn) :
  m w = (Raise e, w1) -> bind m k w = (Raise e, w1).
Proof. intros H. unfold bind. now rewrite H. Qed.

Lemma try_return {A} (body : M A) (catches : Exn -> bool) (handler : Exn -> M A)
    (w w1 : World) (a : A) :
  body w = (Return a, w1) -> try_except body catches handler w = (Return a, w1).
Proof. intros H. unfold try_except. now rewrite H. Qed.

Lemma try_caught {A} (body : M A) (catches : Exn -> bool) (handler : Exn -> M A)
    (w w1 : World) (e : Exn) :
  body w = (Raise e, w1) -> catches e = true ->
  try_except body catches handler w = handler e w1.
Proof. intros H Hc. unfold try_except. now rewrite H, Hc. Qed.

Lemma try_uncaught {A} (body : M A) (catches : Exn -> bool) (handler : Exn -> M A)
    (w w1 : World) (e : Exn) :
  body w = (Raise e, w1) -> catches e = false ->
  try_except body catches handler w = (Raise e, w1).
Proof. intros H Hc. unfold try_except. now rewrite H, Hc. Qed.

Lemma bind_assoc {A B C} (m : M A) (k : A -> M B) (k' : B -> M C) (w : World) :
  bind (bind m k) k' w = bind m (fun a => bind (k a) k') w.
Proof. unfold bind. destruct (m w) as [[a | e] w1]; reflexivity. Qed.

Lemma guarded_from (name : string) (m m' : M CallToolResult.t) (w w1 : World) :
  m w = m' w1 -> guarded name m w = guarded name m' w1.
Proof. intros H. unfold guarded, try_except. now rewrite H. Qed.

Lemma ensure_session_returns (w : World) :
  ensure_session w = (Return tt, snd (ensure_session w)).
Proof.
  unfold ensure_session, bind, self; simpl.
  destruct (session (client w)); [reflexivity |].
  unfold initialize_session, bind, self; simpl.
  destruct (_ && _); reflexivity.
Qed.

Lemma ensure_session_open (w : World) (s : ClientSession) :
  session (client w) = Some s -> ensure_session w = (Return tt, w).
Proof. intros H. unfold ensure_session, bind, self. now rewrite H. Qed.

Lemma returns_text_ret (text : string) (isError : bool) :
  returns_text (ret (text_result text isError)).
Proof. intros w r w' H. injection H as <- _. eauto. Qed.

Lemma returns_text_bind {A} (m : M A) (k : A -> M CallToolResult.t) :
  (forall a, returns_text (k a)) -> returns_text (bind m k).
Proof.
  intros Hk w r w' H. unfold bind in H.
  destruct (m w) as [[a | e] w1]; [now apply (Hk a w1 r w') | discriminate].
Qed.

(** ** Strings *)

Lemma append_cons (c : ascii) (s t : string) :
  String c s +:+ t = String c (s +:+ t).
Proof. reflexivity. Qed.

Lemma append_empty (t : string) : "" +:+ t = t.
Proof. reflexivity. Qed.

Lemma prefix_spec (p s : string) :
  String.prefix p s = true <-> exists post, s = p +:+ post.
Proof.
  revert p. induction s as [| b s IH]; intros [| a p]; simpl.
  - split; [now exists "" | reflexivity].
  - split; [discriminate | intros [post H]; discriminate].
  - split; [now exists (String b s) | reflexivity].
  - destruct (ascii_dec a b) as [-> | Hab].
    + rewrite IH. split; intros [post H]; exists post;
        rewrite append_cons in *; congruence.
    + split; [discriminate | intros [post H]; rewrite append_cons in H; congruence].
Qed.

Lemma py_in_spec (sub s : string) :
  py_in sub s = true <-> exists pre post, s = pre +:+ sub +:+ post.
Proof.
  induction s as [| c s IH].
  - change (py_in sub "") with (String.prefix sub "" || false).
    rewrite orb_true_iff, prefix_spec. split.
    + intros [[post H] | H]; [now exists "", post | discriminate].
    + intros [[| c pre] [post H]]; [left; now exists post | discriminate].
  - change (py_in sub (String c s)) with (String.prefix sub (String c s) || py_in sub s).
    rewrite orb_true_iff, prefix_spec, IH. split.
    + intros [[post H] | [pre [post H]]].
      * now exists "", post.
      * exists (String c pre), post. rewrite append_cons. now rewrite H.
    + intros [[| c' pre] [post H]].
      * left. now exists post.
      * right. exists pre, post. rewrite append_cons in H. congruence.
Qed.



(** ** Comprehensions *)

Lemma comprehension_filter {A} (cond : A -> Outcome bool) (f : A -> bool) (l : list A) :
  (forall x, In x l -> cond x = Return (f x)) ->
  comprehension cond l = Return (List.filter f l).
Proof.
  induction l as [| x l IH]; intros H; simpl; [reflexivity |].
  rewrite (H x (or_introl eq_refl)).
  rewrite IH by (intros y Hy; apply H; now right).
  reflexivity.
Qed.

Section Folding.

Variable lower : string -> string.

Local Abbreviation next_match := (next_match lower).
Local Abbreviation matches := (matches lower).
Local Abbreviation named_like := (named_like lower).
Local Abbreviation named_otherwise := (named_otherwise lower).
Local Abbreviation contains_ci := (contains_ci lower).
Local Abbreviation hit := (hit lower).
Local Abbreviation hit_b := (hit_b lower).

Lemma next_match_first (workbook_name : string) (before after : list Workbook.t)
    (wb : Workbook.t) :
  Forall (named_otherwise workbook_name) before ->
  named_like workbook_name wb ->
  next_match (before ++ wb :: after) workbook_name = Return (Some wb).
Proof.
  intros Hbefore [n [Hn Heq]].
  induction Hbefore as [| x before [m [Hm Hneq]] _ IH]; simpl.
  - rewrite Hn; simpl. rewrite Heq. now rewrite String.eqb_refl.
  - rewrite Hm; simpl. apply String.eqb_neq in Hneq. now rewrite Hneq.
Qed.


Lemma hit_b_spec (query n description : string) :
  hit_b query (Some n) description = true <-> hit query (Some n) description.
Proof.
  unfold hit_b, hit, contains_ci. rewrite orb_true_iff, !py_in_spec. split.
  - intros [H | H]; [left; now exists n | now right].
  - intros [[m [Hm H]] | H]; [left; now injection Hm as -> | now right].
Qed.

Lemma select_filter {A} (query : string) (name : A -> option string)
    (description : A -> string) (l : list A) :
  Forall (fun x => is_set (name x) = true) l ->
  comprehension (fun x => matches (lower query) (name x) (description x)) l =
    Return (List.filter (fun x => hit_b query (name x) (description x)) l).
Proof.
  intros Hall. apply comprehension_filter. intros x Hx.
  rewrite List.Forall_forall in Hall. specialize (Hall x Hx).
  unfold matches, hit_b. destruct (name x); [reflexivity | discriminate].
Qed.


End Folding.

Lemma concat_head (x : string) (xs : list string) :
  exists rest, String.concat nl (x :: xs) = x +:+ rest.
Proof.
  destruct xs as [| y ys].
  - exists "". simpl. induction x as [| c x IH]; [reflexivity |].
    rewrite append_cons. now rewrite <- IH.
  - now exists (nl +:+ String.concat nl (y :: ys)).
Qed.

Lemma no_content_iff (query : string) (mw : list Workbook.t) (md : list DataSource.t) :
  String.concat nl (search_results query mw md) =
    "No content found matching '" +:+ query +:+ "'"
  <-> mw = [] /\ md = [].
Proof.
  split.
  - destruct mw as [| wb mw]; [destruct md as [| ds md] |]; intros H;
      [now split | exfalso | exfalso];
      unfold search_results in H; cbn [app] in H;
      match type of H with
      | String.concat nl (?x :: ?xs) = _ =>
          destruct (concat_head x xs) as [rest Hrest]; rewrite Hrest in H
      end;
      unfold nl in H; rewrite !append_cons in H; discriminate.
  - intros [-> ->]. reflexivity.
Qed.

(** Decompose a goal [keeps P m] along the structure of [m]. *)
Ltac keeps_step :=
  match goal with
  | |- keeps _ (bind _ _) => apply keeps_bind; [| intros ?]
  | |- keeps _ (try_except _ _ _) => apply keeps_try; [| intros ?]
  | |- keeps _ (ret _) => apply keeps_ret
  | |- keeps _ (raise _) => apply keeps_raise
  | |- keeps _ (lift _) => apply keeps_lift
  | |- keeps _ self => apply keeps_self
  | |- keeps _ (if ?b then _ else _) => destruct b
  | |- keeps _ (match ?x with _ => _ end) => destruct x
  end.

Ltac returns_text_step :=
  match goal with
  | |- returns_text (bind _ _) => apply returns_text_bind; intros ?
  | |- returns_text (ret (text_result _ _)) => apply returns_text_ret
  | |- returns_text (if ?b then _ else _) => destruct b
  | |- returns_text (match ?x with _ => _ end) => destruct x
  end.

(** ** Headers *)

Lemma truthy_is_set (x : option string) : truthy x = true -> is_set x = true.
Proof. destruct x; [reflexivity | discriminate]. Qed.

Lemma writable_signin (c : TableauServerMCP) : writable (signin_request c) = true.
Proof. reflexivity. Qed.

Lemma writable_api (urljoin : string -> string -> string) (c : TableauServerMCP)
    (endpoint method : string) (data : option string) :
  writable (api_request urljoin c endpoint method data) = is_set (auth_token c).
Proof. unfold writable, api_request; simpl. now rewrite andb_true_r. Qed.

(** ** Credentials *)

Section Properties.

Variable fromstring : string -> Parsed.
Variable urljoin : string -> string -> string.
Variable net : nat -> ClientSession -> Request -> Outcome Response.
Variable lower : string -> string.

Local Abbreviation next_match := (next_match lower).
Local Abbreviation matches := (matches lower).
Local Abbreviation named_like := (named_like lower).
Local Abbreviation named_otherwise := (named_otherwise lower).
Local Abbreviation contains_ci := (contains_ci lower).
Local Abbreviation hit := (hit lower).
Local Abbreviation hit_b := (hit_b lower).

Local Abbreviation authenticate := (authenticate fromstring net).
Local Abbreviation make_api_request := (make_api_request fromstring urljoin net).
Local Abbreviation list_workbooks := (list_workbooks fromstring urljoin net).
Local Abbreviation list_data_sources := (list_data_sources fromstring urljoin net).
Local Abbreviation get_workbook_details := (get_workbook_details fromstring urljoin net).
Local Abbreviation details_by_id := (details_by_id fromstring urljoin net).
Local Abbreviation dispatch := (dispatch fromstring urljoin net lower).
Local Abbreviation test_connection_branch := (test_connection_branch fromstring net).
Local Abbreviation list_workbooks_branch :=
  (list_workbooks_branch fromstring urljoin net).
Local Abbreviation list_data_sources_branch :=
  (list_data_sources_branch fromstring urljoin net).
Local Abbreviation get_workbook_details_branch :=
  (get_workbook_details_branch fromstring urljoin net lower).
Local Abbreviation search_content_branch :=
  (search_content_branch fromstring urljoin net lower).
Local Abbreviation handle_call_tool := (handle_call_tool fromstring urljoin net lower).

Lemma authenticate_refused (w : World) :
  truthy (token_name (client w)) = false \/
  truthy (token_value (client w)) = false ->
  authenticate w =
    (Raise (ValueError
              "TABLEAU_TOKEN_NAME and TABLEAU_TOKEN_VALUE must be set in .env file"),
     w).
Proof.
  intros H. unfold authenticate, bind, self. simpl.
  destruct H as [H | H]; rewrite H; simpl.
  - reflexivity.
  - rewrite orb_true_r. reflexivity.
Qed.

(** *** What [authenticate] does, case by case *)

Lemma authenticate_accepted (w : World) (s : ClientSession) (r : Response)
    (root : Element) :
  truthy (token_name (client w)) = true ->
  truthy (token_value (client w)) = true ->
  session (client w) = Some s ->
  net (length (sent w)) s (signin_request (client w)) = Return r ->
  status r = 200%Z ->
  fromstring (text r) = Tree root ->
  authenticate w =
    (Return true,
     {| client := signin_effect root (client w);
        sent := sent w ++ [signin_request (client w)] |}).
Proof.
  intros Hn Hv Hs Hnet Hst Hp.
  unfold authenticate, bind, self, try_except, request; simpl.
  rewrite Hn, Hv; simpl. rewrite Hs, Hnet; simpl. rewrite Hst; simpl.
  unfold ET_fromstring. rewrite Hp. unfold ret, signin_effect; simpl.
  destruct (find_desc root "credentials") as [cred |]; simpl; [| reflexivity].
  destruct (find_child cred "site"); reflexivity.
Qed.

(** Every run of [authenticate] is of one of three kinds: it raises
    before sending, it returns [False] without touching the client, or it
    returns [True] after applying a 200 answer that parsed. *)
Lemma authenticate_cases (w : World) :
  (exists msg, authenticate w = (Raise (ValueError msg), w))
  \/ (exists w', authenticate w = (Return false, w') /\ client w' = client w)
  \/ (exists s r root,
        session (client w) = Some s /\
        net (length (sent w)) s (signin_request (client w)) = Return r /\
        status r = 200%Z /\
        fromstring (text r) = Tree root /\
        authenticate w =
          (Return true,
           {| client := signin_effect root (client w);
              sent := sent w ++ [signin_request (client w)] |})).
Proof.
  destruct (truthy (token_name (client w))) eqn:Hn;
    [destruct (truthy (token_value (client w))) eqn:Hv |].
  - destruct (session (client w)) as [s |] eqn:Hs.
    + destruct (net (length (sent w)) s (signin_request (client w))) as [r | e] eqn:Hnet.
      * destruct (Z.eqb_spec (status r) 200) as [Hst | Hst].
        -- destruct (fromstring (text r)) as [root | msg] eqn:Hp.
           ++ right; right. exists s, r, root.
              repeat split; try assumption.
              now apply authenticate_accepted with (s := s) (r := r).
           ++ right; left. eexists. 
              unfold authenticate, bind, self, try_except, request; simpl.
              rewrite Hn, Hv; simpl. rewrite Hs, Hnet; simpl.
              apply Z.eqb_eq in Hst. rewrite Hst.
              unfold ET_fromstring. rewrite Hp. simpl. split; reflexivity.
        -- right; left. eexists.
           unfold authenticate, bind, self, try_except, request; simpl.
           rewrite Hn, Hv; simpl. rewrite Hs, Hnet; simpl.
           apply Z.eqb_neq in Hst. rewrite Hst. simpl. split; reflexivity.
      * right; left. eexists.
        unfold authenticate, bind, self, try_except, request; simpl.
        rewrite Hn, Hv; simpl. rewrite Hs, Hnet; simpl. split; reflexivity.
    + right; left. eexists.
      unfold authenticate, bind, self, try_except, request; simpl.
      rewrite Hn, Hv; simpl. rewrite Hs; simpl. split; reflexivity.
  - left. eexists. apply authenticate_refused. now right.
  - left. eexists. apply authenticate_refused. now left.
Qed.

(** *** Only [authenticate] and [initialize_session] write the client *)

Section Invariants.

Variable P : TableauServerMCP -> Prop.
Hypothesis P_session : forall c s, P c -> P (with_session s c).
Hypothesis P_authenticate : keeps P authenticate.

Lemma keeps_request (attr : string) (req : Request) :
  keeps P (request net attr req).
Proof.
  intros w H. unfold request.
  destruct (session (client w)); [destruct (writable req) |]; exact H.
Qed.

Lemma keeps_ET_fromstring (v : Json) : keeps P (ET_fromstring fromstring v).
Proof.
  unfold ET_fromstring. destruct v; try apply keeps_raise.
  destruct (fromstring s); [apply keeps_ret | apply keeps_raise].
Qed.

Lemma keeps_initialize_session : keeps P initialize_session.
Proof.
  unfold initialize_session. apply keeps_bind; [apply keeps_self | intros c].
  destruct (_ && _); intros w H; simpl; now apply P_session.
Qed.

Lemma keeps_ensure_session : keeps P ensure_session.
Proof.
  unfold ensure_session. apply keeps_bind; [apply keeps_self | intros c].
  destruct (session c); [apply keeps_ret | apply keeps_initialize_session].
Qed.

Lemma keeps_make_api_request (endpoint method : string) (data : option string) :
  keeps P (make_api_request endpoint method data).
Proof.
  unfold make_api_request.
  repeat first [ apply P_authenticate | apply keeps_request | keeps_step ].
Qed.

Lemma keeps_list_workbooks : keeps P list_workbooks.
Proof.
  unfold list_workbooks.
  repeat first [ apply keeps_make_api_request | apply keeps_ET_fromstring
               | keeps_step ].
Qed.

Lemma keeps_list_data_sources : keeps P list_data_sources.
Proof.
  unfold list_data_sources.
  repeat first [ apply keeps_make_api_request | apply keeps_ET_fromstring
               | keeps_step ].
Qed.

Lemma keeps_get_workbook_details (workbook_id : string) :
  keeps P (get_workbook_details workbook_id).
Proof.
  unfold get_workbook_details.
  repeat first [ apply keeps_make_api_request | apply keeps_ET_fromstring
               | keeps_step ].
Qed.

Lemma keeps_details_by_id (workbook_id : option string) :
  keeps P (details_by_id workbook_id).
Proof.
  unfold details_by_id.
  repeat first [ apply keeps_get_workbook_details | keeps_step ].
Qed.

Lemma keeps_dispatch (name : string) (arguments : gmap string string) :
  keeps P (dispatch name arguments).
Proof.
  unfold dispatch, test_connection_branch, list_workbooks_branch,
    list_data_sources_branch, get_workbook_details_branch, search_content_branch.
  repeat first [ apply keeps_ensure_session | apply P_authenticate
               | apply keeps_list_workbooks | apply keeps_list_data_sources
               | apply keeps_details_by_id | keeps_step ].
Qed.

Lemma keeps_handle_call_tool (name : string) (arguments : gmap string string) :
  keeps P (handle_call_tool name arguments).
Proof.
  unfold handle_call_tool, guarded.
  apply keeps_try; [apply keeps_dispatch | intros e; apply keeps_ret].
Qed.

End Invariants.

Lemma signin_effect_config (root : Element) (c : TableauServerMCP) :
  server_url (signin_effect root c) = server_url c /\
  site_id (signin_effect root c) = site_id c.
Proof.
  unfold signin_effect.
  destruct (find_desc root "credentials") as [cred |]; [| now split].
  destruct (find_child cred "site"); now split.
Qed.

Lemma signin_effect_token (root : Element) (c : TableauServerMCP) :
  offered_token root = None ->
  truthy (auth_token c) = false ->
  truthy (auth_token (signin_effect root c)) = false.
Proof.
  unfold signin_effect, offered_token.
  destruct (find_desc root "credentials") as [cred |]; [| easy].
  intros -> _. destruct (find_child cred "site"); reflexivity.
Qed.

Lemma signin_effect_complete (r : Response) (root : Element) (c : TableauServerMCP) :
  complete_signin fromstring r ->
  status r = 200%Z ->
  fromstring (text r) = Tree root ->
  all_or_nothing c ->
  all_or_nothing (signin_effect root c).
Proof.
  intros Hc Hst Hp Hc0. unfold signin_effect.
  destruct (find_desc root "credentials") as [cred |] eqn:Hf; [| exact Hc0].
  destruct (Hc root cred Hst Hp Hf) as [Htok [site [-> Hid]]].
  unfold all_or_nothing; simpl. now rewrite Htok, Hid.
Qed.

Lemma authenticate_all_or_nothing :
  complete_server fromstring net -> keeps all_or_nothing authenticate.
Proof.
  intros Hsrv w H.
  destruct (authenticate_cases w)
    as [[msg ->] | [[w' [-> Hw']] | [s [r [root [_ [Hnet [Hst [Hp ->]]]]]]]]]; simpl.
  - exact H.
  - now rewrite Hw'.
  - apply signin_effect_complete with (r := r); try assumption.
    exact (Hsrv _ _ _ _ Hnet).
Qed.

(** *** Requests *)

(** With a token in hand and the session open, a 200 answer declared as XML
    is handed over as its body text; the client is not touched. *)
Lemma make_api_request_xml (w : World) (s : ClientSession) (r : Response)
    (endpoint : string) :
  truthy (auth_token (client w)) = true ->
  session (client w) = Some s ->
  net (length (sent w)) s (api_request urljoin (client w) endpoint "GET" None)
    = Return r ->
  status r = 200%Z ->
  py_in "xml" (content_type r) = true ->
  make_api_request endpoint "GET" None w =
    (Return (JStr (text r)),
     {| client := client w;
        sent := sent w ++ [api_request urljoin (client w) endpoint "GET" None] |}).
Proof.
  intros Htok Hs Hnet Hst Hxml.
  unfold make_api_request, bind, self, try_except, request; simpl.
  rewrite Htok; simpl. rewrite Hs, writable_api, (truthy_is_set _ Htok), Hnet; simpl.
  rewrite Hst, Hxml. reflexivity.
Qed.

(** *** Listings *)

Lemma parse_tree (body : string) (root : Element) (w : World) :
  fromstring body = Tree root ->
  ET_fromstring fromstring (JStr body) w = (Return root, w).
Proof. intros H. unfold ET_fromstring. now rewrite H. Qed.

Lemma parse_malformed (body msg : string) (w : World) :
  fromstring body = Malformed msg ->
  ET_fromstring fromstring (JStr body) w = (Raise (ParseError msg), w).
Proof. intros H. unfold ET_fromstring. now rewrite H. Qed.

Lemma truthy_str_nonempty (s : string) : s <> "" -> truthy_str s = true.
Proof. destruct s; [congruence | reflexivity]. Qed.


Lemma list_workbooks_unreadable (w w' : World) (p : Json) :
  make_api_request "workbooks" "GET" None w = (Return p, w') ->
  empty_or_malformed fromstring p ->
  list_workbooks w = (Return [], w').
Proof.
  intros Hreq Hp. unfold list_workbooks.
  rewrite (bind_return _ _ _ _ _ Hreq).
  destruct Hp as [-> | [-> | [body [msg [-> Hm]]]]]; try reflexivity.
  destruct (truthy_json (JStr body)); simpl; [| reflexivity].
  erewrite try_caught;
    [reflexivity | apply bind_raise, (parse_malformed body msg w' Hm) | reflexivity].
Qed.

Lemma list_data_sources_unreadable (w w' : World) (p : Json) :
  make_api_request "datasources" "GET" None w = (Return p, w') ->
  empty_or_malformed fromstring p ->
  list_data_sources w = (Return [], w').
Proof.
  intros Hreq Hp. unfold list_data_sources.
  rewrite (bind_return _ _ _ _ _ Hreq).
  destruct Hp as [-> | [-> | [body [msg [-> Hm]]]]]; try reflexivity.
  destruct (truthy_json (JStr body)); simpl; [| reflexivity].
  erewrite try_caught;
    [reflexivity | apply bind_raise, (parse_malformed body msg w' Hm) | reflexivity].
Qed.

(** *** Workbook details *)

Lemma get_workbook_details_found (workbook_id : string) (w w1 w2 : World)
    (body : string) (root workbook : Element) (vp : Json) (views : list View.t) :
  make_api_request ("workbooks/" +:+ workbook_id) "GET" None w
    = (Return (JStr body), w1) ->
  body <> "" ->
  fromstring body = Tree root ->
  find_desc root "workbook" = Some workbook ->
  make_api_request ("workbooks/" +:+ workbook_id +:+ "/views") "GET" None w1
    = (Return vp, w2) ->
  views_listed fromstring vp views ->
  get_workbook_details workbook_id w =
    (Return (Some {| WorkbookDetails.id := get workbook "id";
                     WorkbookDetails.name := get workbook "name";
                     WorkbookDetails.description :=
                       get_default workbook "description" "";
                     WorkbookDetails.size := get_default workbook "size" "0";
                     WorkbookDetails.views := views;
                     WorkbookDetails.viewCount := length views |}), w2).
Proof.
  intros Hreq Hne Hp Hf Hviews Hvl. unfold get_workbook_details.
  rewrite (bind_return _ _ _ _ _ Hreq); simpl.
  rewrite (truthy_str_nonempty body Hne); simpl.
  apply try_return.
  rewrite (bind_return _ _ _ _ _ (parse_tree body root w1 Hp)). rewrite Hf.
  rewrite (bind_return _ _ _ _ _ Hviews).
  destruct Hvl as [[Hfalsy ->] | [vbody [vroot [-> [Hvne [Hvp ->]]]]]].
  - rewrite Hfalsy. reflexivity.
  - simpl. rewrite (truthy_str_nonempty vbody Hvne).
    erewrite bind_return; [reflexivity |].
    now rewrite (bind_return _ _ _ _ _ (parse_tree vbody vroot w2 Hvp)).
Qed.

Lemma get_workbook_details_missing (workbook_id : string) (w w1 : World) (p : Json) :
  make_api_request ("workbooks/" +:+ workbook_id) "GET" None w = (Return p, w1) ->
  lookup_failed fromstring p ->
  get_workbook_details workbook_id w = (Return None, w1).
Proof.
  intros Hreq Hfail. unfold get_workbook_details.
  rewrite (bind_return _ _ _ _ _ Hreq).
  destruct Hfail as [-> | [body [-> Hbody]]]; [reflexivity |].
  destruct (truthy_json (JStr body)); simpl; [| reflexivity].
  destruct Hbody as [[msg Hm] | [root [Hp Hf]]].
  - erewrite try_caught;
      [reflexivity | apply bind_raise, (parse_malformed body msg w1 Hm) | reflexivity].
  - apply try_return.
    rewrite (bind_return _ _ _ _ _ (parse_tree body root w1 Hp)). now rewrite Hf.
Qed.

(** *** The dispatcher *)

Lemma returns_text_details_by_id (workbook_id : option string) :
  returns_text (details_by_id workbook_id).
Proof. unfold details_by_id. repeat returns_text_step. Qed.

Lemma returns_text_dispatch (name : string) (arguments : gmap string string) :
  returns_text (dispatch name arguments).
Proof.
  unfold dispatch, test_connection_branch, list_workbooks_branch,
    list_data_sources_branch, get_workbook_details_branch, search_content_branch.
  repeat first [ apply returns_text_details_by_id | returns_text_step ].
Qed.

Lemma dispatch_search (arguments : gmap string string) :
  dispatch "search_content" arguments =
    (ensure_session ;; search_content_branch arguments).
Proof. reflexivity. Qed.

Lemma dispatch_details (arguments : gmap string string) :
  dispatch "get_workbook_details" arguments =
    (ensure_session ;; get_workbook_details_branch arguments).
Proof. reflexivity. Qed.

(** ** The claims *)

(** C1, amended. Provided every answer of the server is a complete sign-in
    answer (no [credentials] element, or one with both a token and a site
    id), a client that holds both the token and the site UUID, or neither,
    still does so after [authenticate], after [make_api_request] and after
    any tool call. *)
Theorem all_or_nothing_preserved (w : World) (endpoint method : string)
    (data : option string) (name : string) (arguments : gmap string string) :
  complete_server fromstring net ->
  all_or_nothing (client w) ->
  all_or_nothing (client (snd (authenticate w))) /\
  all_or_nothing (client (snd (make_api_request endpoint method data w))) /\
  all_or_nothing (client (snd (handle_call_tool name arguments w))).
Proof.
  intros Hsrv H.
  pose proof (authenticate_all_or_nothing Hsrv) as Hauth.
  assert (Hsess : forall c s, all_or_nothing c -> all_or_nothing (with_session s c))
    by (intros c s Hc; exact Hc).
  repeat split.
  - now apply Hauth.
  - now apply keeps_make_api_request.
  - now apply keeps_handle_call_tool.
Qed.

(** C2. Whatever the tool name, the arguments and the state, a call to the
    dispatcher returns; it does not raise, and what it returns is a single
    text item, plain or error-flagged. *)
Theorem handle_call_tool_never_raises (name : string)
    (arguments : gmap string string) (w : World) :
  exists text isError w',
    handle_call_tool name arguments w = (Return (text_result text isError), w').
Proof.
  unfold handle_call_tool, guarded, try_except.
  destruct (dispatch name arguments w) as [[r | e] w1] eqn:Hd.
  - destruct (returns_text_dispatch name arguments w r w1 Hd) as [text [isError ->]].
    now exists text, isError, w1.
  - simpl. now eexists _, _, _.
Qed.


(** C7. When the token name or the token secret is unset (absent or
    empty), [authenticate] raises the configuration error and leaves the
    world as it was: no sign-in request is sent. *)
Theorem authenticate_without_credentials (w : World) :
  truthy (token_name (client w)) = false \/
  truthy (token_value (client w)) = false ->
  authenticate w =
    (Raise (ValueError
              "TABLEAU_TOKEN_NAME and TABLEAU_TOKEN_VALUE must be set in .env file"),
     w).
Proof. apply authenticate_refused. Qed.

(** C8, amended. When the workbook lookup succeeds and the views payload
    is absent or well-formed, [get_workbook_details] returns a record with
    the workbook's id, name, description (default empty) and size (default
    "0"), the View records in document order and their count; the record
    has no timestamps, project or owner. When the lookup fails it returns
    none. *)
Theorem workbook_details_record (workbook_id : string) :
  (forall w w1 w2 body root workbook vp views,
      make_api_request ("workbooks/" +:+ workbook_id) "GET" None w
        = (Return (JStr body), w1) ->
      body <> "" ->
      fromstring body = Tree root ->
      find_desc root "workbook" = Some workbook ->
      make_api_request ("workbooks/" +:+ workbook_id +:+ "/views") "GET" None w1
        = (Return vp, w2) ->
      views_listed fromstring vp views ->
      get_workbook_details workbook_id w =
        (Return (Some {| WorkbookDetails.id := get workbook "id";
                         WorkbookDetails.name := get workbook "name";
                         WorkbookDetails.description :=
                           get_default workbook "description" "";
                         WorkbookDetails.size := get_default workbook "size" "0";
                         WorkbookDetails.views := views;
                         WorkbookDetails.viewCount := length views |}), w2)) /\
  (forall w w1 p,
      make_api_request ("workbooks/" +:+ workbook_id) "GET" None w = (Return p, w1) ->
      lookup_failed fromstring p ->
      get_workbook_details workbook_id w = (Return None, w1)).
Proof.
  split.
  - intros. now apply get_workbook_details_found with (body := body) (root := root)
                                                      (w1 := w1) (vp := vp).
  - intros. now apply get_workbook_details_missing with (p := p).
Qed.

(** C9. A sign-in answer with status 200 and a well-formed body makes
    [authenticate] return [True] whatever the body holds; when it offers no
    token and the client held none, [test_connection] answers with the
    success text, not error-flagged, that reports the token as missing. *)
Theorem signin_200_is_success (w : World) (s : ClientSession) (r : Response)
    (root : Element) (arguments : gmap string string) :
  truthy (token_name (client w)) = true ->
  truthy (token_value (client w)) = true ->
  session (client w) = Some s ->
  net (length (sent w)) s (signin_request (client w)) = Return r ->
  status r = 200%Z ->
  fromstring (text r) = Tree root ->
  fst (authenticate w) = Return true /\
  (offered_token root = None ->
   truthy (auth_token (client w)) = false ->
   fst (handle_call_tool "test_connection" arguments w) =
     Return (text_result
               ("‚úÖ Successfully connected to " +:+ server_url (client w) +:+ nl +:+
                "Site: " +:+ site_id (client w) +:+ nl +:+
                "Auth Token: Missing")
               false)).
Proof.
  intros Hn Hv Hs Hnet Hst Hp.
  pose proof (authenticate_accepted w s r root Hn Hv Hs Hnet Hst Hp) as Hauth.
  split; [now rewrite Hauth |].
  intros Hoff Hold.
  unfold handle_call_tool, guarded, dispatch.
  erewrite try_return; [reflexivity |].
  rewrite (bind_return _ _ _ _ _ (ensure_session_open w s Hs)); simpl.
  unfold test_connection_branch.
  rewrite (bind_return _ _ _ _ _ Hauth).
  unfold bind, self, ret, token_presence; simpl.
  rewrite (signin_effect_token root (client w) Hoff Hold).
  destruct (signin_effect_config root (client w)) as [-> ->].
  reflexivity.
Qed.

End Properties.

(** * Further properties *)

(** ** Request budgets *)

Section Budget.

Context {A B : Type}.

Lemma sends_ret (n : nat) (a : A) : sends_at_most n (ret a).
Proof. intros w. exists []. split; [now rewrite app_nil_r | simpl; lia]. Qed.

Lemma sends_raise (n : nat) (e : Exn) : sends_at_most n (@raise A e).
Proof. intros w. exists []. split; [now rewrite app_nil_r | simpl; lia]. Qed.

Lemma sends_lift (n : nat) (o : Outcome A) : sends_at_most n (lift o).
Proof. intros w. exists []. split; [now rewrite app_nil_r | simpl; lia]. Qed.

Lemma sends_bind (n k t : nat) (m : M A) (f : A -> M B) :
  sends_at_most n m -> (forall a, sends_at_most k (f a)) -> (n + k <= t)%nat ->
  sends_at_most t (bind m f).
Proof.
  intros Hm Hf Hle w. unfold bind.
  destruct (Hm w) as [e1 [H1 L1]].
  destruct (m w) as [[a | e] w1]; simpl in *.
  - destruct (Hf a w1) as [e2 [H2 L2]]. exists (e1 ++ e2).
    rewrite H2, H1, <- app_assoc. split; [reflexivity |].
    rewrite length_app. lia.
  - exists e1. split; [exact H1 | lia].
Qed.

Lemma sends_try (n k t : nat) (body : M A) (catches : Exn -> bool)
    (handler : Exn -> M A) :
  sends_at_most n body -> (forall e, sends_at_most k (handler e)) ->
  (n + k <= t)%nat ->
  sends_at_most t (try_except body catches handler).
Proof.
  intros Hm Hh Hle w. unfold try_except.
  destruct (Hm w) as [e1 [H1 L1]].
  destruct (body w) as [[a | e] w1]; simpl in *.
  - exists e1. split; [exact H1 | lia].
  - destruct (catches e); simpl.
    + destruct (Hh e w1) as [e2 [H2 L2]]. exists (e1 ++ e2).
      rewrite H2, H1, <- app_assoc. split; [reflexivity |].
      rewrite length_app. lia.
    + exists e1. split; [exact H1 | lia].
Qed.

Lemma sends_weaken (n t : nat) (m : M A) :
  (n <= t)%nat -> sends_at_most n m -> sends_at_most t m.
Proof.
  intros Hle Hm w. destruct (Hm w) as [e1 [H1 L1]].
  exists e1. split; [exact H1 | lia].
Qed.

End Budget.

Lemma sends_self (n : nat) : sends_at_most n self.
Proof. intros w. exists []. split; [now rewrite app_nil_r | simpl; lia]. Qed.

Lemma sends_assign (n : nat) (f : TableauServerMCP -> TableauServerMCP) :
  sends_at_most n (assign f).
Proof. intros w. exists []. split; [simpl; now rewrite app_nil_r | simpl; lia]. Qed.

(** Code that sends nothing itself, at any budget. *)
Ltac sends_step :=
  match goal with
  | |- sends_at_most _ (ret _) => apply sends_ret
  | |- sends_at_most _ (raise _) => apply sends_raise
  | |- sends_at_most _ (lift _) => apply sends_lift
  | |- sends_at_most _ self => apply sends_self
  | |- sends_at_most _ (assign _) => apply sends_assign
  | |- sends_at_most ?n (bind self _) =>
      apply (sends_bind 0 n n); [apply sends_self | intros ? | lia]
  | |- sends_at_most ?n (bind (assign _) _) =>
      apply (sends_bind 0 n n); [apply sends_assign | intros ? | lia]
  | |- sends_at_most ?n (bind (lift _) _) =>
      apply (sends_bind 0 n n); [apply sends_lift | intros ? | lia]
  | |- sends_at_most _ (if ?b then _ else _) => destruct b
  | |- sends_at_most _ (match ?x with _ => _ end) => destruct x
  end.

Section Coverage.

Variable fromstring : string -> Parsed.
Variable urljoin : string -> string -> string.
Variable net : nat -> ClientSession -> Request -> Outcome Response.
Variable lower : string -> string.

Local Abbreviation authenticate := (authenticate fromstring net).
Local Abbreviation make_api_request := (make_api_request fromstring urljoin net).
Local Abbreviation list_workbooks := (list_workbooks fromstring urljoin net).
Local Abbreviation list_data_sources := (list_data_sources fromstring urljoin net).
Local Abbreviation get_workbook_details := (get_workbook_details fromstring urljoin net).
Local Abbreviation details_by_id := (details_by_id fromstring urljoin net).
Local Abbreviation dispatch := (dispatch fromstring urljoin net lower).
Local Abbreviation handle_call_tool := (handle_call_tool fromstring urljoin net lower).
Local Abbreviation test_connection_branch := (test_connection_branch fromstring net).
Local Abbreviation list_workbooks_branch :=
  (list_workbooks_branch fromstring urljoin net).
Local Abbreviation list_data_sources_branch :=
  (list_data_sources_branch fromstring urljoin net).
Local Abbreviation get_workbook_details_branch :=
  (get_workbook_details_branch fromstring urljoin net lower).
Local Abbreviation search_content_branch :=
  (search_content_branch fromstring urljoin net lower).

Lemma sends_request (attr : string) (req : Request) :
  sends_at_most 1 (request net attr req).
Proof.
  intros w. unfold request. destruct (session (client w)); simpl.
  - destruct (writable req); simpl.
    + exists [req]. split; [reflexivity | simpl; lia].
    + exists []. split; [now rewrite app_nil_r | simpl; lia].
  - exists []. split; [now rewrite app_nil_r | simpl; lia].
Qed.

Lemma sends_ET_fromstring (n : nat) (v : Json) :
  sends_at_most n (ET_fromstring fromstring v).
Proof.
  unfold ET_fromstring. destruct v; try apply sends_raise.
  destruct (fromstring s); [apply sends_ret | apply sends_raise].
Qed.

Lemma sends_initialize_session (n : nat) : sends_at_most n initialize_session.
Proof. unfold initialize_session. repeat sends_step. Qed.

Lemma sends_ensure_session (n : nat) : sends_at_most n ensure_session.
Proof.
  unfold ensure_session. sends_step.
  destruct (session a); [apply sends_ret | apply sends_initialize_session].
Qed.

Lemma sends_authenticate : sends_at_most 1 authenticate.
Proof.
  unfold authenticate. sends_step. sends_step; [apply sends_raise |].
  apply (sends_try 1 0 1); [| intros e; apply sends_ret | lia].
  apply (sends_bind 1 0 1); [apply sends_request | intros response | lia].
  sends_step; [| apply sends_ret].
  apply (sends_bind 0 0 0); [apply sends_ET_fromstring | intros root | lia].
  apply (sends_bind 0 0 0); [| intros u; apply sends_ret | lia].
  repeat sends_step.
Qed.

Lemma sends_make_api_request (endpoint method : string) (data : option string) :
  sends_at_most 2 (make_api_request endpoint method data).
Proof.
  unfold make_api_request. sends_step.
  apply (sends_bind 1 1 2); [| intros u | lia].
  - sends_step; [| apply sends_ret].
    apply (sends_bind 1 0 1); [apply sends_authenticate | intros b; apply sends_ret | lia].
  - sends_step.
    apply (sends_try 1 0 1); [| intros e; apply sends_ret | lia].
    apply (sends_bind 1 0 1); [apply sends_request | intros response | lia].
    repeat sends_step.
Qed.

Lemma sends_list_workbooks : sends_at_most 2 list_workbooks.
Proof.
  unfold list_workbooks.
  apply (sends_bind 2 0 2); [apply sends_make_api_request | intros p | lia].
  sends_step; [apply sends_ret |].
  apply (sends_try 0 0 0); [| intros e; apply sends_ret | lia].
  apply (sends_bind 0 0 0); [apply sends_ET_fromstring | intros r; apply sends_ret | lia].
Qed.

Lemma sends_list_data_sources : sends_at_most 2 list_data_sources.
Proof.
  unfold list_data_sources.
  apply (sends_bind 2 0 2); [apply sends_make_api_request | intros p | lia].
  sends_step; [apply sends_ret |].
  apply (sends_try 0 0 0); [| intros e; apply sends_ret | lia].
  apply (sends_bind 0 0 0); [apply sends_ET_fromstring | intros r; apply sends_ret | lia].
Qed.

Lemma sends_get_workbook_details (workbook_id : string) :
  sends_at_most 4 (get_workbook_details workbook_id).
Proof.
  unfold get_workbook_details.
  apply (sends_bind 2 2 4); [apply sends_make_api_request | intros p | lia].
  sends_step; [apply sends_ret |].
  apply (sends_try 2 0 2); [| intros e; apply sends_ret | lia].
  apply (sends_bind 0 2 2); [apply sends_ET_fromstring | intros root | lia].
  sends_step; [| apply sends_ret].
  apply (sends_bind 2 0 2); [apply sends_make_api_request | intros vp | lia].
  apply (sends_bind 0 0 0); [| intros views; apply sends_ret | lia].
  sends_step; [| apply sends_ret].
  apply (sends_bind 0 0 0); [apply sends_ET_fromstring | intros r; apply sends_ret | lia].
Qed.

Lemma sends_details_by_id (workbook_id : option string) :
  sends_at_most 4 (details_by_id workbook_id).
Proof.
  unfold details_by_id. destruct workbook_id as [[| c s] |]; try apply sends_ret.
  apply (sends_bind 4 0 4); [apply sends_get_workbook_details | intros d | lia].
  destruct d; apply sends_ret.
Qed.

Lemma sends_dispatch (name : string) (arguments : gmap string string) :
  sends_at_most 6 (dispatch name arguments).
Proof.
  unfold dispatch.
  apply (sends_bind 0 6 6); [apply sends_ensure_session | intros u | lia].
  repeat (sends_step; [| try apply sends_ret]).
  - unfold test_connection_branch.
    apply (sends_bind 1 0 6); [apply sends_authenticate | intros b | lia].
    repeat sends_step.
  - unfold list_workbooks_branch.
    apply (sends_bind 2 0 6); [apply sends_list_workbooks | intros l | lia].
    repeat sends_step.
  - unfold list_data_sources_branch.
    apply (sends_bind 2 0 6); [apply sends_list_data_sources | intros l | lia].
    repeat sends_step.
  - unfold get_workbook_details_branch. cbv zeta.
    sends_step; [| apply (sends_weaken 4 6); [lia | apply sends_details_by_id] ].
    apply (sends_bind 2 4 6); [apply sends_list_workbooks | intros l | lia].
    sends_step. sends_step; [apply sends_details_by_id | apply sends_ret].
  - unfold search_content_branch. cbv zeta.
    apply (sends_bind 2 2 6); [apply sends_list_workbooks | intros l | lia].
    apply (sends_bind 2 0 2); [apply sends_list_data_sources | intros l' | lia].
    repeat sends_step.
Qed.

Lemma sends_handle_call_tool (name : string) (arguments : gmap string string) :
  sends_at_most 6 (handle_call_tool name arguments).
Proof.
  unfold handle_call_tool, guarded.
  apply (sends_try 6 0 6); [apply sends_dispatch | intros e; apply sends_ret | lia].
Qed.

(** ** What a call leaves alone *)

Lemma same_config_refl (c : TableauServerMCP) : same_config c c.
Proof. repeat split. Qed.

Lemma signin_effect_keeps (root : Element) (c : TableauServerMCP) :
  same_config c (signin_effect root c) /\
  session (signin_effect root c) = session c.
Proof.
  unfold signin_effect.
  destruct (find_desc root "credentials") as [cred |];
    [| split; [apply same_config_refl | reflexivity]].
  destruct (find_child cred "site"); repeat split.
Qed.

Lemma authenticate_same_config (c0 : TableauServerMCP) :
  keeps (same_config c0) authenticate.
Proof.
  intros w H.
  destruct (authenticate_cases fromstring net w)
    as [[msg ->] | [[w' [-> Hw']] | [s [r [root [_ [_ [_ [_ ->]]]]]]]]]; simpl.
  - exact H.
  - now rewrite Hw'.
  - destruct (signin_effect_keeps root (client w)) as [[H1 [H2 [H3 [H4 [H5 H6]]]]] _].
    destruct H as [G1 [G2 [G3 [G4 [G5 G6]]]]].
    repeat split; congruence.
Qed.

Lemma authenticate_same_session (s : ClientSession) :
  keeps (fun c => session c = Some s) authenticate.
Proof.
  intros w H.
  destruct (authenticate_cases fromstring net w)
    as [[msg ->] | [[w' [-> Hw']] | [s' [r [root [_ [_ [_ [_ ->]]]]]]]]]; simpl.
  - exact H.
  - now rewrite Hw'.
  - destruct (signin_effect_keeps root (client w)) as [_ Hs]. congruence.
Qed.

(** The branches write the client through [authenticate] only. *)
Lemma keeps_branches (P : TableauServerMCP -> Prop) (name : string)
    (arguments : gmap string string) :
  keeps P authenticate ->
  keeps P
    (if String.eqb name "test_connection" then test_connection_branch
     else if String.eqb name "list_workbooks" then list_workbooks_branch
     else if String.eqb name "list_data_sources" then list_data_sources_branch
     else if String.eqb name "get_workbook_details" then
       get_workbook_details_branch arguments
     else if String.eqb name "search_content" then search_content_branch arguments
     else ret (text_result ("Unknown tool: " +:+ name) true)).
Proof.
  intros Hauth.
  unfold test_connection_branch, list_workbooks_branch, list_data_sources_branch,
    get_workbook_details_branch, search_content_branch.
  repeat first [ apply Hauth
               | apply (keeps_list_workbooks fromstring urljoin net P Hauth)
               | apply (keeps_list_data_sources fromstring urljoin net P Hauth)
               | apply (keeps_details_by_id fromstring urljoin net P Hauth)
               | keeps_step ].
Qed.

Lemma ensure_session_effect (w : World) :
  exists s0,
    snd (ensure_session w) =
      {| client := with_session (Some s0) (client w); sent := sent w |} /\
    (forall s, session (client w) = Some s -> s0 = s /\ snd (ensure_session w) = w).
Proof.
  unfold ensure_session, bind, self; simpl.
  destruct (session (client w)) as [s |] eqn:Hs.
  - exists s. simpl. split.
    + destruct w as [c l]. simpl in *. destruct c; simpl in *. now subst.
    + intros s' [= <-]. now split.
  - unfold initialize_session, bind, self; simpl.
    destruct (_ && _); eexists; (split; [reflexivity | discriminate]).
Qed.

Lemma session_survives_tool_call (name : string) (arguments : gmap string string)
    (w : World) :
  exists s0,
    session (client (snd (handle_call_tool name arguments w))) = Some s0 /\
    (forall s, session (client w) = Some s -> s0 = s).
Proof.
  destruct (ensure_session_effect w) as [s0 [Hw0 Hsame]].
  exists s0. split; [| intros s Hs; now destruct (Hsame s Hs)].
  assert (H0 : session (client (snd (ensure_session w))) = Some s0)
    by now rewrite Hw0.
  unfold handle_call_tool, dispatch.
  erewrite guarded_from
    by (rewrite (bind_return _ _ _ _ _ (ensure_session_returns w)); reflexivity).
  unfold guarded.
  apply (keeps_try (fun c => session c = Some s0));
    [| intros e; apply keeps_ret | exact H0].
  apply keeps_branches, authenticate_same_session.
Qed.

Lemma config_survives_tool_call (name : string) (arguments : gmap string string)
    (w : World) :
  same_config (client w) (client (snd (handle_call_tool name arguments w))).
Proof.
  apply (keeps_handle_call_tool fromstring urljoin net lower (same_config (client w))).
  - intros c s H. exact H.
  - apply authenticate_same_config.
  - apply same_config_refl.
Qed.

(** ** Signing in and requesting *)

Lemma authenticate_sent (w : World) (s : ClientSession) :
  truthy (token_name (client w)) = true ->
  truthy (token_value (client w)) = true ->
  session (client w) = Some s ->
  sent (snd (authenticate w)) = sent w ++ [signin_request (client w)].
Proof.
  intros Hn Hv Hs.
  unfold authenticate, bind, self, try_except, request; simpl.
  rewrite Hn, Hv; simpl. rewrite Hs; simpl.
  destruct (net (length (sent w)) s (signin_request (client w))) as [r | e]; simpl;
    [| reflexivity].
  destruct (status r =? 200)%Z; simpl; [| reflexivity].
  unfold ET_fromstring. destruct (fromstring (text r)); simpl; [| reflexivity].
  destruct (find_desc root "credentials") as [cred |]; simpl; [| reflexivity].
  destruct (find_child cred "site"); reflexivity.
Qed.

Lemma authenticate_rejected (w : World) (s : ClientSession) (r : Response) :
  truthy (token_name (client w)) = true ->
  truthy (token_value (client w)) = true ->
  session (client w) = Some s ->
  net (length (sent w)) s (signin_request (client w)) = Return r ->
  status r <> 200%Z ->
  authenticate w =
    (Return false,
     {| client := client w; sent := sent w ++ [signin_request (client w)] |}).
Proof.
  intros Hn Hv Hs Hnet Hst.
  unfold authenticate, bind, self, try_except, request; simpl.
  rewrite Hn, Hv; simpl. rewrite Hs, Hnet; simpl.
  apply Z.eqb_neq in Hst. now rewrite Hst.
Qed.

Lemma authenticate_keeps_client_unless_true (w : World) :
  fst (authenticate w) <> Return true ->
  client (snd (authenticate w)) = client w.
Proof.
  intros Hne.
  destruct (authenticate_cases fromstring net w)
    as [[msg H] | [[w' [H Hw']] | [s [r [root [_ [_ [_ [_ H]]]]]]]]];
    rewrite H in *; simpl in *; [reflexivity | exact Hw' | congruence].
Qed.

(** With a token held and the session open, [make_api_request] sends the
    one request and returns whatever comes of it. *)
Lemma make_api_request_held (w : World) (s : ClientSession)
    (endpoint method : string) (data : option string) :
  truthy (auth_token (client w)) = true ->
  session (client w) = Some s ->
  exists p,
    make_api_request endpoint method data w =
      (Return p,
       {| client := client w;
          sent := sent w ++ [api_request urljoin (client w) endpoint method data] |}) /\
    (forall r,
        net (length (sent w)) s (api_request urljoin (client w) endpoint method data)
          = Return r ->
        status r <> 200%Z -> status r <> 201%Z -> p = JNull) /\
    (forall e,
        net (length (sent w)) s (api_request urljoin (client w) endpoint method data)
          = Raise e ->
        p = JNull).
Proof.
  intros Htok Hs.
  unfold make_api_request, bind, self, try_except, request; simpl.
  rewrite Htok; simpl. rewrite Hs, writable_api, (truthy_is_set _ Htok); simpl.
  destruct (net (length (sent w)) s (api_request urljoin (client w) endpoint method data))
    as [r | e]; simpl.
  - destruct (Z.eqb_spec (status r) 200) as [H200 | H200]; simpl.
    + destruct (py_in "xml" (content_type r)); simpl.
      * eexists. split; [reflexivity |]. split; [congruence | discriminate].
      * unfold lift. destruct (json r); simpl;
          (eexists; split; [reflexivity |]; split; [congruence | discriminate]).
    + destruct (Z.eqb_spec (status r) 201) as [H201 | H201]; simpl.
      * destruct (py_in "xml" (content_type r)); simpl.
        -- eexists. split; [reflexivity |]. split; [congruence | discriminate].
        -- unfold lift. destruct (json r); simpl;
             (eexists; split; [reflexivity |]; split; [congruence | discriminate]).
      * eexists. split; [reflexivity |]. split; [reflexivity | discriminate].
  - eexists. split; [reflexivity |]. split; [discriminate | reflexivity].
Qed.

(** After a rejected sign-in on a client without a token,
    [make_api_request] goes on, but the request it builds has no auth value
    and the session refuses it: nothing more is sent. *)
Lemma make_api_request_after_rejection (w : World) (s : ClientSession) (r : Response)
    (endpoint method : string) (data : option string) :
  auth_token (client w) = None ->
  truthy (token_name (client w)) = true ->
  truthy (token_value (client w)) = true ->
  session (client w) = Some s ->
  net (length (sent w)) s (signin_request (client w)) = Return r ->
  status r <> 200%Z ->
  make_api_request endpoint method data w =
    (Return JNull,
     {| client := client w; sent := sent w ++ [signin_request (client w)] |}).
Proof.
  intros Htok Hn Hv Hs Hnet Hst.
  unfold make_api_request.
  rewrite (bind_return _ _ _ _ _ (eq_refl : self w = (Return (client w), w))).
  rewrite Htok; simpl.
  erewrite bind_return
    by (rewrite (bind_return _ _ _ _ _ (authenticate_rejected w s r Hn Hv Hs Hnet Hst));
        reflexivity).
  unfold bind, self, try_except, request; simpl.
  rewrite Hs, writable_api; simpl. rewrite Htok. reflexivity.
Qed.

(** After an accepted sign-in that yields a token, the request carries what
    the answer held. *)
Lemma make_api_request_after_signin (w : World) (s : ClientSession) (r : Response)
    (root : Element) (endpoint method : string) (data : option string) :
  truthy (auth_token (client w)) = false ->
  truthy (token_name (client w)) = true ->
  truthy (token_value (client w)) = true ->
  session (client w) = Some s ->
  net (length (sent w)) s (signin_request (client w)) = Return r ->
  status r = 200%Z ->
  fromstring (text r) = Tree root ->
  is_set (auth_token (signin_effect root (client w))) = true ->
  snd (make_api_request endpoint method data w) =
    {| client := signin_effect root (client w);
       sent := sent w ++ [signin_request (client w);
                          api_request urljoin (signin_effect root (client w))
                            endpoint method data] |}.
Proof.
  intros Htok Hn Hv Hs Hnet Hst Hp Hset.
  unfold make_api_request.
  rewrite (bind_return _ _ _ _ _ (eq_refl : self w = (Return (client w), w))).
  rewrite Htok; simpl.
  erewrite bind_return
    by (rewrite (bind_return _ _ _ _ _
                   (authenticate_accepted fromstring net w s r root Hn Hv Hs Hnet Hst Hp));
        reflexivity).
  unfold bind, self, try_except, request; simpl.
  destruct (signin_effect_keeps root (client w)) as [_ Hsess].
  rewrite Hsess, Hs, writable_api, Hset; simpl.
  rewrite <- app_assoc. simpl.
  destruct (net (length (sent w ++ [signin_request (client w)])) s _) as [r' | e];
    simpl; [| reflexivity].
  destruct ((status r' =? 200)%Z || (status r' =? 201)%Z); simpl; [| reflexivity].
  destruct (py_in "xml" (content_type r')); simpl; [reflexivity |].
  unfold lift. destruct (json r'); reflexivity.
Qed.

(** ** The dispatcher, branch by branch *)

Lemma handle_after_session (name : string) (arguments : gmap string string) (w : World) :
  handle_call_tool name arguments w =
    guarded name
      (if String.eqb name "test_connection" then test_connection_branch
       else if String.eqb name "list_workbooks" then list_workbooks_branch
       else if String.eqb name "list_data_sources" then list_data_sources_branch
       else if String.eqb name "get_workbook_details" then
         get_workbook_details_branch arguments
       else if String.eqb name "search_content" then search_content_branch arguments
       else ret (text_result ("Unknown tool: " +:+ name) true))
      (snd (ensure_session w)).
Proof.
  unfold handle_call_tool, dispatch. apply guarded_from.
  now rewrite (bind_return _ _ _ _ _ (ensure_session_returns w)).
Qed.

Lemma ensure_session_fields (w : World) :
  sent (snd (ensure_session w)) = sent w /\
  auth_token (client (snd (ensure_session w))) = auth_token (client w) /\
  token_name (client (snd (ensure_session w))) = token_name (client w) /\
  token_value (client (snd (ensure_session w))) = token_value (client w).
Proof.
  destruct (ensure_session_effect w) as [s0 [-> _]]. repeat split.
Qed.

Lemma make_api_request_unconfigured (w : World) (endpoint method : string)
    (data : option string) :
  truthy (auth_token (client w)) = false ->
  truthy (token_name (client w)) = false \/ truthy (token_value (client w)) = false ->
  make_api_request endpoint method data w =
    (Raise (ValueError
              "TABLEAU_TOKEN_NAME and TABLEAU_TOKEN_VALUE must be set in .env file"),
     w).
Proof.
  intros Htok Hcred. unfold make_api_request.
  rewrite (bind_return _ _ _ _ _ (eq_refl : self w = (Return (client w), w))).
  rewrite Htok; simpl.
  apply bind_raise, bind_raise. now apply authenticate_refused.
Qed.

Lemma guarded_raise (name : string) (m : M CallToolResult.t) (w w1 : World) (e : Exn) :
  m w = (Raise e, w1) ->
  guarded name m w =
    (Return (text_result ("Error executing " +:+ name +:+ ": " +:+ str_exn e) true), w1).
Proof. intros H. unfold guarded, try_except. now rewrite H. Qed.

Lemma guarded_return (name : string) (m : M CallToolResult.t) (w w1 : World)
    (r : CallToolResult.t) :
  m w = (Return r, w1) -> guarded name m w = (Return r, w1).
Proof. intros H. unfold guarded, try_except. now rewrite H. Qed.

Lemma py_in_empty (s : string) : py_in "" s = true.
Proof. destruct s; reflexivity. Qed.



Lemma list_workbooks_refused (w w' : World) (p : Json) :
  make_api_request "workbooks" "GET" None w = (Return p, w') ->
  truthy_json p = true ->
  (forall s, p <> JStr s) ->
  exists msg, list_workbooks w = (Raise (TypeError msg), w').
Proof.
  intros Hreq Htruthy Hnot. unfold list_workbooks.
  rewrite (bind_return _ _ _ _ _ Hreq). rewrite Htruthy; simpl.
  destruct p; try discriminate; try (now destruct (Hnot s));
    (eexists; erewrite try_uncaught; [reflexivity | reflexivity | reflexivity]).
Qed.

Lemma list_data_sources_refused (w w' : World) (p : Json) :
  make_api_request "datasources" "GET" None w = (Return p, w') ->
  truthy_json p = true ->
  (forall s, p <> JStr s) ->
  exists msg, list_data_sources w = (Raise (TypeError msg), w').
Proof.
  intros Hreq Htruthy Hnot. unfold list_data_sources.
  rewrite (bind_return _ _ _ _ _ Hreq). rewrite Htruthy; simpl.
  destruct p; try discriminate; try (now destruct (Hnot s));
    (eexists; erewrite try_uncaught; [reflexivity | reflexivity | reflexivity]).
Qed.


Lemma get_workbook_details_views_malformed (workbook_id : string) (w w1 w2 : World)
    (body vbody msg : string) (root workbook : Element) :
  make_api_request ("workbooks/" +:+ workbook_id) "GET" None w
    = (Return (JStr body), w1) ->
  body <> "" ->
  fromstring body = Tree root ->
  find_desc root "workbook" = Some workbook ->
  make_api_request ("workbooks/" +:+ workbook_id +:+ "/views") "GET" None w1
    = (Return (JStr vbody), w2) ->
  vbody <> "" ->
  fromstring vbody = Malformed msg ->
  get_workbook_details workbook_id w = (Return None, w2).
Proof.
  intros Hreq Hne Hp Hf Hviews Hvne Hvp. unfold get_workbook_details.
  rewrite (bind_return _ _ _ _ _ Hreq); simpl.
  rewrite (truthy_str_nonempty body Hne); simpl.
  erewrite try_caught;
    [ reflexivity
    | rewrite (bind_return _ _ _ _ _ (parse_tree fromstring body root w1 Hp)), Hf;
      rewrite (bind_return _ _ _ _ _ Hviews); simpl;
      rewrite (truthy_str_nonempty vbody Hvne);
      apply bind_raise, bind_raise, (parse_malformed fromstring vbody msg w2 Hvp)
    | reflexivity ].
Qed.

End Coverage.

(** ** Answers of the dispatcher *)

Lemma not_unknown_head (c : ascii) (t : string) :
  c <> "U"%char -> not_unknown (String c t).
Proof.
  intros Hc rest H. unfold not_unknown in *.
  rewrite append_cons in H. injection H as H _. contradiction.
Qed.

Lemma not_unknown_append (c : ascii) (t u : string) :
  c <> "U"%char -> not_unknown (String c t +:+ u).
Proof. intros Hc. rewrite append_cons. now apply not_unknown_head. Qed.

Lemma not_unknown_search (query : string) (mw : list Workbook.t)
    (md : list DataSource.t) :
  not_unknown (String.concat nl (search_results query mw md)).
Proof.
  destruct mw as [| wb mw]; [destruct md as [| ds md] |];
    unfold search_results; cbn [app];
    match goal with
    | |- not_unknown (String.concat nl (?x :: ?xs)) =>
        destruct (concat_head x xs) as [rest ->]
    end;
    unfold nl; rewrite !append_cons; apply not_unknown_head; discriminate.
Qed.

Lemma answers_ret (Q : string -> Prop) (t : string) (b : bool) :
  Q t -> answers_with Q (ret (text_result t b)).
Proof. intros H w r w' [= <- _]. exact H. Qed.

Lemma answers_bind {A} (Q : string -> Prop) (m : M A) (k : A -> M CallToolResult.t) :
  (forall a, answers_with Q (k a)) -> answers_with Q (bind m k).
Proof.
  intros Hk w r w' H. unfold bind in H.
  destruct (m w) as [[a | e] w1]; [now apply (Hk a w1 r w') | discriminate].
Qed.

Lemma answers_guarded (name : string) (m : M CallToolResult.t) :
  answers_with not_unknown m -> answers_with not_unknown (guarded name m).
Proof.
  intros Hm w r w' H. unfold guarded, try_except in H.
  destruct (m w) as [[a | e] w1] eqn:E.
  - injection H as <- _. now apply (Hm w a w1).
  - simpl in H. injection H as <- _. simpl.
    apply not_unknown_append. discriminate.
Qed.

Ltac answers_step :=
  match goal with
  | |- answers_with _ (bind _ _) => apply answers_bind; intros ?
  | |- answers_with _ (ret (text_result _ _)) =>
      apply answers_ret;
      first [ apply not_unknown_search
            | apply not_unknown_head; discriminate
            | apply not_unknown_append; discriminate ]
  | |- answers_with _ (if ?b then _ else _) => destruct b
  | |- answers_with _ (match ?x with _ => _ end) => destruct x
  end.

Section Answers.

Variable fromstring : string -> Parsed.
Variable urljoin : string -> string -> string.
Variable net : nat -> ClientSession -> Request -> Outcome Response.
Variable lower : string -> string.

Lemma answers_details_by_id (workbook_id : option string) :
  answers_with not_unknown (details_by_id fromstring urljoin net workbook_id).
Proof. unfold details_by_id. repeat answers_step. Qed.

Lemma answers_advertised (name : string) (arguments : gmap string string) :
  In name advertised ->
  answers_with not_unknown
    (handle_call_tool fromstring urljoin net lower name arguments).
Proof.
  intros Hin w r w' H. rewrite handle_after_session in H.
  revert H. apply answers_guarded.
  unfold advertised in Hin; simpl in Hin.
  destruct Hin as [<- | [<- | [<- | [<- | [<- | []]]]]]; simpl;
    unfold test_connection_branch, list_workbooks_branch, list_data_sources_branch,
      get_workbook_details_branch, search_content_branch;
    repeat first [ apply answers_details_by_id | answers_step ].
Qed.

Lemma unadvertised_unknown (name : string) (arguments : gmap string string)
    (w : World) :
  ~ In name advertised ->
  handle_call_tool fromstring urljoin net lower name arguments w =
    (Return (text_result ("Unknown tool: " +:+ name) true), snd (ensure_session w)).
Proof.
  intros Hnot. rewrite handle_after_session. apply guarded_return.
  unfold advertised in Hnot; simpl in Hnot.
  repeat match goal with
         | |- context [String.eqb name ?lit] =>
             destruct (String.eqb_spec name lit) as [-> | _];
             [exfalso; apply Hnot; tauto |]
         end.
  reflexivity.
Qed.

End Answers.

(** ** Letter case *)



(** ** Comprehensions that raise *)

Lemma comprehension_raises {A} (cond : A -> Outcome bool) (e0 : Exn) (l : list A) :
  (forall x, (exists b, cond x = Return b) \/ cond x = Raise e0) ->
  Exists (fun x => cond x = Raise e0) l ->
  comprehension cond l = Raise e0.
Proof.
  intros Hcond. induction l as [| x l IH]; intros Hex; [inversion Hex |].
  simpl. destruct (Hcond x) as [[b Hb] | Hr].
  - rewrite Hb. inversion Hex as [? ? Hx | ? ? Hl]; subst; [congruence |].
    now rewrite (IH Hl).
  - now rewrite Hr.
Qed.

Lemma named_or_not {A} (name : A -> option string) (l : list A) :
  Forall (fun x => is_set (name x) = true) l \/ Exists (fun x => name x = None) l.
Proof.
  induction l as [| x l [IH | IH]].
  - left. constructor.
  - destruct (name x) as [n |] eqn:E.
    + left. constructor; [now rewrite E | exact IH].
    + right. now constructor.
  - right. now constructor 2.
Qed.

Lemma search_report_results (query : string) (mw : list Workbook.t)
    (md : list DataSource.t) :
  search_results query mw md = search_report query mw md.
Proof.
  destruct mw as [| wb mw]; destruct md as [| ds md]; unfold search_results, search_report;
    cbn [app]; rewrite ?app_nil_r; reflexivity.
Qed.


Section Resolution.

Variable fromstring : string -> Parsed.
Variable urljoin : string -> string -> string.
Variable net : nat -> ClientSession -> Request -> Outcome Response.
Variable lower : string -> string.

Local Abbreviation authenticate := (authenticate fromstring net).
Local Abbreviation make_api_request := (make_api_request fromstring urljoin net).
Local Abbreviation list_workbooks := (list_workbooks fromstring urljoin net).
Local Abbreviation list_data_sources := (list_data_sources fromstring urljoin net).
Local Abbreviation get_workbook_details := (get_workbook_details fromstring urljoin net).
Local Abbreviation details_by_id := (details_by_id fromstring urljoin net).
Local Abbreviation handle_call_tool := (handle_call_tool fromstring urljoin net lower).
Local Abbreviation get_workbook_details_branch :=
  (get_workbook_details_branch fromstring urljoin net lower).
Local Abbreviation search_content_branch :=
  (search_content_branch fromstring urljoin net lower).
Local Abbreviation next_match := (next_match lower).
Local Abbreviation matches := (matches lower).
Local Abbreviation named_like := (named_like lower).
Local Abbreviation named_otherwise := (named_otherwise lower).
Local Abbreviation hit := (hit lower).
Local Abbreviation hit_b := (hit_b lower).

(** *** The requests of a detail lookup *)




(** *** What [make_api_request] makes of an answer *)

Lemma make_api_request_unreadable (w : World) (s : ClientSession) (endpoint : string) :
  truthy (auth_token (client w)) = true ->
  session (client w) = Some s ->
  unreadable_answer fromstring
    (net (length (sent w)) s (api_request urljoin (client w) endpoint "GET" None)) ->
  exists p,
    make_api_request endpoint "GET" None w =
      (Return p,
       {| client := client w;
          sent := sent w ++ [api_request urljoin (client w) endpoint "GET" None] |}) /\
    empty_or_malformed fromstring p.
Proof.
  intros Htok Hs Hbad.
  unfold make_api_request, bind, self, try_except, request; simpl.
  rewrite Htok; simpl. rewrite Hs, writable_api, (truthy_is_set _ Htok); simpl.
  destruct (net (length (sent w)) s (api_request urljoin (client w) endpoint "GET" None))
    as [r | e]; simpl in *.
  - destruct ((status r =? 200)%Z || (status r =? 201)%Z) eqn:Est; simpl.
    + destruct Hbad as [[H200 H201] | [Hxml Hbody]].
      * apply orb_true_iff in Est. destruct Est as [E | E]; apply Z.eqb_eq in E; contradiction.
      * rewrite Hxml. simpl. eexists. split; [reflexivity |].
        destruct Hbody as [Hempty | [msg Hm]].
        -- rewrite Hempty. right. now left.
        -- right. right. now exists (text r), msg.
    + eexists. split; [reflexivity | now left].
  - eexists. split; [reflexivity | now left].
Qed.

(** *** The claims on resolution, search and listings *)



(** C5, amended. [search_content] lowercases the query with [str.lower].
    When every listed workbook and data source bears a name, it keeps from
    each list, in order, exactly the records whose name or description
    contains the query after [str.lower] on both, and reports the matching
    workbooks under their heading and the matching data sources under
    theirs, one line per record, in a plain result; the text is the "No
    content found" line exactly when both selections are empty. When a
    listed record has no name, the call ends in the error-flagged generic
    text. *)
Theorem search_content_selects_matches (arguments : gmap string string)
    (w w1 w2 : World) (workbooks : list Workbook.t)
    (data_sources : list DataSource.t) :
  list_workbooks (snd (ensure_session w)) = (Return workbooks, w1) ->
  list_data_sources w1 = (Return data_sources, w2) ->
  let query := default "" (arguments !! "query") in
  (Forall (fun wb => is_set (Workbook.name wb) = true) workbooks ->
   Forall (fun ds => is_set (DataSource.name ds) = true) data_sources ->
   exists matching_workbooks matching_data_sources,
     handle_call_tool "search_content" arguments w =
       (Return (text_result
                  (String.concat nl
                     (search_report (lower query)
                        matching_workbooks matching_data_sources))
                  false), w2) /\
     (exists f,
         matching_workbooks = List.filter f workbooks /\
         forall wb, In wb workbooks ->
           (f wb = true <->
            hit query (Workbook.name wb) (Workbook.description wb))) /\
     (exists g,
         matching_data_sources = List.filter g data_sources /\
         forall ds, In ds data_sources ->
           (g ds = true <->
            hit query (DataSource.name ds) (DataSource.description ds))) /\
     (String.concat nl
        (search_report (lower query) matching_workbooks matching_data_sources) =
        "No content found matching '" +:+ lower query +:+ "'"
      <-> matching_workbooks = [] /\ matching_data_sources = [])) /\
  (Exists (fun wb => Workbook.name wb = None) workbooks \/
   Exists (fun ds => DataSource.name ds = None) data_sources ->
   handle_call_tool "search_content" arguments w =
     (Return (text_result
                ("Error executing search_content: " +:+
                 "'NoneType' object has no attribute 'lower'")
                true), w2)).
Proof.
  intros Hwb Hds query. split.
  - intros Hnw Hnd.
    exists (List.filter
              (fun wb => hit_b query (Workbook.name wb) (Workbook.description wb))
              workbooks),
           (List.filter
              (fun ds => hit_b query (DataSource.name ds) (DataSource.description ds))
              data_sources).
    split; [| split; [| split]].
    + rewrite handle_after_session; simpl. apply guarded_return.
      unfold search_content_branch.
      rewrite (bind_return _ _ _ _ _ Hwb), (bind_return _ _ _ _ _ Hds).
      fold query. unfold lift.
      rewrite (select_filter lower query Workbook.name Workbook.description
                 workbooks Hnw).
      rewrite (select_filter lower query DataSource.name DataSource.description
                 data_sources Hnd).
      unfold bind, ret. now rewrite search_report_results.
    + eexists. split; [reflexivity |]. intros wb Hin.
      rewrite List.Forall_forall in Hnw. specialize (Hnw wb Hin).
      destruct (Workbook.name wb) as [n |]; [apply hit_b_spec | discriminate].
    + eexists. split; [reflexivity |]. intros ds Hin.
      rewrite List.Forall_forall in Hnd. specialize (Hnd ds Hin).
      destruct (DataSource.name ds) as [n |]; [apply hit_b_spec | discriminate].
    + rewrite <- search_report_results. apply no_content_iff.
  - intros Hex.
    rewrite handle_after_session; simpl.
    match goal with
    | |- guarded ?n ?m ?w0 = _ =>
        assert (H : m w0 =
                    (Raise (AttributeError "'NoneType' object has no attribute 'lower'"),
                     w2));
        [| rewrite (guarded_raise n m w0 w2 _ H); reflexivity ]
    end.
    unfold search_content_branch.
    rewrite (bind_return _ _ _ _ _ Hwb), (bind_return _ _ _ _ _ Hds).
    fold query. unfold lift.
    assert (Hcond : forall (name : option string) (description : string),
               (exists b, matches (lower query) name description = Return b) \/
               matches (lower query) name description =
                 Raise (AttributeError "'NoneType' object has no attribute 'lower'")).
    { intros [n |] d; [left; eexists; reflexivity | right; reflexivity]. }
    destruct (named_or_not Workbook.name workbooks) as [Hnw | Hxw].
    + destruct Hex as [Hxw | Hxd].
      * exfalso. rewrite List.Exists_exists in Hxw. destruct Hxw as [wb [Hin Hnone]].
        rewrite List.Forall_forall in Hnw. specialize (Hnw wb Hin).
        rewrite Hnone in Hnw. discriminate.
      * rewrite (select_filter lower query Workbook.name Workbook.description
                   workbooks Hnw).
        unfold bind at 1.
        rewrite (comprehension_raises
                   (fun ds => matches (lower query) (DataSource.name ds)
                                (DataSource.description ds))
                   (AttributeError "'NoneType' object has no attribute 'lower'")
                   data_sources); [reflexivity | intros ds; apply Hcond |].
        rewrite List.Exists_exists in *. destruct Hxd as [ds [Hin Hnone]].
        exists ds. split; [exact Hin |]. unfold matches. now rewrite Hnone.
    + rewrite (comprehension_raises
                 (fun wb => matches (lower query) (Workbook.name wb)
                              (Workbook.description wb))
                 (AttributeError "'NoneType' object has no attribute 'lower'")
                 workbooks); [reflexivity | intros wb; apply Hcond |].
      rewrite List.Exists_exists in *. destruct Hxw as [wb [Hin Hnone]].
      exists wb. split; [exact Hin |]. unfold matches. now rewrite Hnone.
Qed.

(** C6, amended. The listings return the empty list, and do not raise,
    whenever [make_api_request] hands them nothing, an empty body or a body
    that is not well-formed XML; with a token held that is what every
    transport failure, every status other than 200 and 201 and every answer
    declared as XML with such a body comes to, after the one request. An
    answer declared otherwise is decoded as JSON, and a decoded value that is
    neither empty nor a text makes the listings raise a type error. *)
Theorem listings_empty_on_unreadable_answer (w w' : World) (p : Json) :
  (empty_or_malformed fromstring p ->
   (make_api_request "workbooks" "GET" None w = (Return p, w') ->
    list_workbooks w = (Return [], w')) /\
   (make_api_request "datasources" "GET" None w = (Return p, w') ->
    list_data_sources w = (Return [], w'))) /\
  (forall s,
      truthy (auth_token (client w)) = true ->
      session (client w) = Some s ->
      (unreadable_answer fromstring
         (net (length (sent w)) s (api_request urljoin (client w) "workbooks" "GET" None)) ->
       list_workbooks w =
         (Return [],
          {| client := client w;
             sent := sent w ++ [api_request urljoin (client w) "workbooks" "GET" None] |})) /\
      (unreadable_answer fromstring
         (net (length (sent w)) s
            (api_request urljoin (client w) "datasources" "GET" None)) ->
       list_data_sources w =
         (Return [],
          {| client := client w;
             sent := sent w ++
               [api_request urljoin (client w) "datasources" "GET" None] |}))) /\
  (truthy_json p = true ->
   (forall s, p <> JStr s) ->
   (make_api_request "workbooks" "GET" None w = (Return p, w') ->
    exists msg, list_workbooks w = (Raise (TypeError msg), w')) /\
   (make_api_request "datasources" "GET" None w = (Return p, w') ->
    exists msg, list_data_sources w = (Raise (TypeError msg), w'))).
Proof.
  split; [| split].
  - intros Hp. split; intros Hreq.
    + now apply (list_workbooks_unreadable fromstring urljoin net w w' p).
    + now apply (list_data_sources_unreadable fromstring urljoin net w w' p).
  - intros s Htok Hs. split; intros Hbad.
    + destruct (make_api_request_unreadable w s "workbooks" Htok Hs Hbad)
        as [q [Hreq Hq]].
      now apply (list_workbooks_unreadable fromstring urljoin net w _ q).
    + destruct (make_api_request_unreadable w s "datasources" Htok Hs Hbad)
        as [q [Hreq Hq]].
      now apply (list_data_sources_unreadable fromstring urljoin net w _ q).
  - intros Htruthy Hnot. split; intros Hreq.
    + now apply (list_workbooks_refused fromstring urljoin net w w' p).
    + now apply (list_data_sources_refused fromstring urljoin net w w' p).
Qed.


End Resolution.

(** ** Proxy exemption *)

Lemma split_acc_trailing (sep : ascii) (acc pre : string) :
  In "" (split_acc sep acc (pre +:+ String sep "")).
Proof.
  revert acc. induction pre as [| c pre IH]; intros acc.
  - rewrite append_empty. simpl. rewrite Ascii.eqb_refl. right. now left.
  - rewrite append_cons. simpl. destruct (Ascii.eqb c sep); [right |]; apply IH.
Qed.

Lemma exempt_by_empty_host (url : string) (hosts : list string) :
  In "" hosts -> existsb (fun host => py_in host url) hosts = true.
Proof.
  intros H. apply existsb_exists. exists "". split; [exact H | apply py_in_empty].
Qed.

(** ** The properties beyond the claims *)

Section Extras.

Variable fromstring : string -> Parsed.
Variable urljoin : string -> string -> string.
Variable net : nat -> ClientSession -> Request -> Outcome Response.
Variable lower : string -> string.

Local Abbreviation authenticate := (authenticate fromstring net).
Local Abbreviation make_api_request := (make_api_request fromstring urljoin net).
Local Abbreviation list_workbooks := (list_workbooks fromstring urljoin net).
Local Abbreviation list_data_sources := (list_data_sources fromstring urljoin net).
Local Abbreviation get_workbook_details := (get_workbook_details fromstring urljoin net).
Local Abbreviation handle_call_tool := (handle_call_tool fromstring urljoin net lower).
Local Abbreviation named_like := (named_like lower).
Local Abbreviation named_otherwise := (named_otherwise lower).

(** X1. When the proxy-exemption list is empty, or begins or ends with a
    comma, one of its fields is the empty string, which occurs in every
    server URL: [initialize_session] then opens the session without
    [trust_env], whatever the proxy URL. *)
Theorem initialize_session_empty_exemption (w : World) :
  no_proxy (client w) = "" \/
  (exists post, no_proxy (client w) = "," +:+ post) \/
  (exists pre, no_proxy (client w) = pre +:+ ",") ->
  initialize_session w =
    (Return tt,
     {| client := with_session (Some {| trust_env := false |}) (client w);
        sent := sent w |}).
Proof.
  intros H.
  assert (Hin : In "" (split "," (no_proxy (client w)))).
  { destruct H as [-> | [[post ->] | [pre ->]]].
    - now left.
    - now left.
    - apply split_acc_trailing. }
  unfold initialize_session, bind, self; simpl.
  rewrite (exempt_by_empty_host _ _ Hin). rewrite andb_false_r. reflexivity.
Qed.

(** X2. No tool call changes the configuration of the client: server URL,
    site, credential pair, proxy URL and exemption list are after the call
    what they were before, whatever the server answers. *)
Theorem tool_call_keeps_configuration (name : string)
    (arguments : gmap string string) (w : World) :
  same_config (client w) (client (snd (handle_call_tool name arguments w))).
Proof. apply config_survives_tool_call. Qed.

(** X3. After any tool call the HTTP session is open, and a session that
    was open before the call is the one that is open after it: it is created
    once and never replaced. *)
Theorem tool_call_keeps_session (name : string) (arguments : gmap string string)
    (w : World) :
  exists s0,
    session (client (snd (handle_call_tool name arguments w))) = Some s0 /\
    (forall s, session (client w) = Some s -> s0 = s).
Proof. apply session_survives_tool_call. Qed.

(** X4. Nothing is retried: [authenticate] sends at most one request,
    [make_api_request] and the two listings at most two, the detail lookup at
    most four and a tool call at most six; the requests already in the log
    stay as they are. *)
Theorem request_budget (endpoint method workbook_id name : string)
    (data : option string) (arguments : gmap string string) :
  sends_at_most 1 authenticate /\
  sends_at_most 2 (make_api_request endpoint method data) /\
  sends_at_most 2 list_workbooks /\
  sends_at_most 2 list_data_sources /\
  sends_at_most 4 (get_workbook_details workbook_id) /\
  sends_at_most 6 (handle_call_tool name arguments).
Proof.
  repeat split.
  - apply sends_authenticate.
  - apply sends_make_api_request.
  - apply sends_list_workbooks.
  - apply sends_list_data_sources.
  - apply sends_get_workbook_details.
  - apply sends_handle_call_tool.
Qed.

(** X5. While the client holds a token, [make_api_request] never signs in:
    it sends exactly the one request, returns without raising and leaves the
    client as it is; on a transport failure or a status other than 200 and
    201 it returns nothing, and the token stays. *)
Theorem held_token_is_not_refreshed (w : World) (s : ClientSession)
    (endpoint method : string) (data : option string) :
  truthy (auth_token (client w)) = true ->
  session (client w) = Some s ->
  exists p,
    make_api_request endpoint method data w =
      (Return p,
       {| client := client w;
          sent := sent w ++ [api_request urljoin (client w) endpoint method data] |}) /\
    (forall r,
        net (length (sent w)) s (api_request urljoin (client w) endpoint method data)
          = Return r ->
        status r <> 200%Z -> status r <> 201%Z -> p = JNull) /\
    (forall e,
        net (length (sent w)) s (api_request urljoin (client w) endpoint method data)
          = Raise e ->
        p = JNull).
Proof. apply make_api_request_held. Qed.

(** X6. [test_connection] always signs in again: with credentials and an
    open session it sends exactly one request, the sign-in request, also when
    the client already holds a token. *)
Theorem test_connection_signs_in_again (w : World) (s : ClientSession)
    (arguments : gmap string string) :
  truthy (token_name (client w)) = true ->
  truthy (token_value (client w)) = true ->
  session (client w) = Some s ->
  sent (snd (handle_call_tool "test_connection" arguments w)) =
    sent w ++ [signin_request (client w)].
Proof.
  intros Hn Hv Hs.
  pose proof (authenticate_sent fromstring net w s Hn Hv Hs) as Hsent.
  rewrite handle_after_session; simpl.
  destruct (ensure_session_effect w) as [s0 [_ Hsame]].
  destruct (Hsame s Hs) as [_ ->].
  unfold guarded, try_except, test_connection_branch, bind.
  destruct (authenticate w) as [[[|] | e] w1]; simpl in *; exact Hsent.
Qed.

(** X7. Unless [authenticate] returns [True], it leaves the client as it
    was: a rejected, failed or unreadable sign-in neither clears nor replaces
    a token and site UUID held from before. *)
Theorem failed_signin_keeps_client (w : World) :
  fst (authenticate w) <> Return true ->
  client (snd (authenticate w)) = client w.
Proof. apply authenticate_keeps_client_unless_true. Qed.

(** X8. After a rejected sign-in the request itself does not leave: on a
    client without a token whose sign-in is answered with a status other
    than 200, [make_api_request] sends the sign-in request and nothing else.
    The request it then builds carries [None] as its [X-Tableau-Auth] header,
    which the HTTP session refuses to write; the failure is caught and the
    result is [None]. The client stays as it was. *)
Theorem rejected_signin_request_is_refused (w : World) (s : ClientSession) (r : Response)
    (endpoint method : string) (data : option string) :
  auth_token (client w) = None ->
  truthy (token_name (client w)) = true ->
  truthy (token_value (client w)) = true ->
  session (client w) = Some s ->
  net (length (sent w)) s (signin_request (client w)) = Return r ->
  status r <> 200%Z ->
  make_api_request endpoint method data w =
    (Return JNull,
     {| client := client w; sent := sent w ++ [signin_request (client w)] |}) /\
  In ("X-Tableau-Auth", None)
     (headers (api_request urljoin (client w) endpoint method data)) /\
  writable (api_request urljoin (client w) endpoint method data) = false.
Proof.
  intros Htok Hn Hv Hs Hnet Hst. split; [| split].
  - now apply (make_api_request_after_rejection fromstring urljoin net w s r).
  - unfold api_request; simpl. rewrite Htok. now left.
  - now rewrite writable_api, Htok.
Qed.

(** X9. Without credentials and without a token, the connection test, the
    two listings and the search all answer with the error-flagged text that
    names the two settings to provide, and send nothing. *)
Theorem missing_credentials_are_reported (name : string)
    (arguments : gmap string string) (w : World) :
  truthy (auth_token (client w)) = false ->
  truthy (token_name (client w)) = false \/ truthy (token_value (client w)) = false ->
  In name ["test_connection"; "list_workbooks"; "list_data_sources"; "search_content"] ->
  handle_call_tool name arguments w =
    (Return (text_result
               ("Error executing " +:+ name +:+
                ": TABLEAU_TOKEN_NAME and TABLEAU_TOKEN_VALUE must be set in .env file")
               true),
     snd (ensure_session w)) /\
  sent (snd (ensure_session w)) = sent w.
Proof.
  intros Htok Hcred Hin.
  destruct (ensure_session_fields w) as [Hsent [Ht [Hn Hv]]].
  split; [| exact Hsent].
  rewrite <- Ht in Htok. rewrite <- Hn, <- Hv in Hcred.
  set (w0 := snd (ensure_session w)) in *.
  rewrite handle_after_session. fold w0.
  destruct Hin as [<- | [<- | [<- | [<- | []]]]]; simpl;
    match goal with
    | |- guarded ?n ?m w0 = _ =>
        assert (H : m w0 =
                    (Raise (ValueError
                              "TABLEAU_TOKEN_NAME and TABLEAU_TOKEN_VALUE must be set in .env file"),
                     w0));
        [| rewrite (guarded_raise n m w0 w0 _ H); reflexivity ]
    end.
  - unfold test_connection_branch.
    apply bind_raise, (authenticate_refused fromstring net w0 Hcred).
  - unfold list_workbooks_branch, list_workbooks.
    apply bind_raise, bind_raise.
    now apply make_api_request_unconfigured.
  - unfold list_data_sources_branch, list_data_sources.
    apply bind_raise, bind_raise.
    now apply make_api_request_unconfigured.
  - unfold search_content_branch, list_workbooks.
    apply bind_raise, bind_raise.
    now apply make_api_request_unconfigured.
Qed.

(** X10. The dispatcher serves exactly the advertised tools: a name that
    [handle_list_tools] does not list gets the error-flagged "Unknown tool"
    answer and no request is sent, and a listed name never gets that
    answer. *)
Theorem dispatcher_serves_the_catalogue (name : string)
    (arguments : gmap string string) (w : World) :
  (~ In name advertised ->
   handle_call_tool name arguments w =
     (Return (text_result ("Unknown tool: " +:+ name) true), snd (ensure_session w)) /\
   sent (snd (ensure_session w)) = sent w) /\
  (In name advertised ->
   forall r w', handle_call_tool name arguments w = (Return r, w') ->
                not_unknown (result_text r)).
Proof.
  split.
  - intros Hnot. split; [now apply unadvertised_unknown |].
    now destruct (ensure_session_fields w).
  - intros Hin r w' H.
    exact (answers_advertised fromstring urljoin net lower name arguments Hin w r w' H).
Qed.

(** X11. [get_workbook_details] called with neither a workbook name nor a
    workbook id (absent or empty) answers with the error-flagged request to
    provide one of them, and sends nothing. *)
Theorem details_need_an_argument (arguments : gmap string string) (w : World) :
  truthy (arguments !! "workbook_name") = false ->
  truthy (arguments !! "workbook_id") = false ->
  handle_call_tool "get_workbook_details" arguments w =
    (Return (text_result
               "‚ùå Please provide either workbook_name or workbook_id." true),
     snd (ensure_session w)) /\
  sent (snd (ensure_session w)) = sent w.
Proof.
  intros Hname Hid. split; [| now destruct (ensure_session_fields w)].
  rewrite handle_after_session; simpl. apply guarded_return.
  unfold get_workbook_details_branch. rewrite Hname; simpl.
  unfold details_by_id.
  destruct (arguments !! "workbook_id") as [[| c t] |]; [reflexivity | discriminate | reflexivity].
Qed.

(** X12. When the given name resolves to a workbook whose record has no id
    (or an empty one), the call answers with the request to provide a name or
    an id, although a name was given and found. *)
Theorem resolved_workbook_without_id (arguments : gmap string string)
    (workbook_name : string) (w w1 : World)
    (before after : list Workbook.t) (wb : Workbook.t) :
  arguments !! "workbook_name" = Some workbook_name ->
  workbook_name <> "" ->
  truthy (arguments !! "workbook_id") = false ->
  list_workbooks (snd (ensure_session w)) = (Return (before ++ wb :: after), w1) ->
  Forall (named_otherwise workbook_name) before ->
  named_like workbook_name wb ->
  truthy (Workbook.id wb) = false ->
  handle_call_tool "get_workbook_details" arguments w =
    (Return (text_result
               "‚ùå Please provide either workbook_name or workbook_id." true),
     w1).
Proof.
  intros Hname Hne Hid Hlist Hbefore Hwb Hnoid.
  rewrite handle_after_session; simpl. apply guarded_return.
  unfold get_workbook_details_branch. rewrite Hname, Hid; simpl.
  rewrite (truthy_str_nonempty workbook_name Hne); simpl.
  rewrite (bind_return _ _ _ _ _ Hlist).
  unfold lift at 1. unfold bind at 1.
  rewrite (next_match_first lower _ _ _ _ Hbefore Hwb).
  unfold details_by_id.
  destruct (Workbook.id wb) as [[| c t] |]; [reflexivity | discriminate | reflexivity].
Qed.


(** X14. A views body that is not well-formed discards the workbook that
    was found: [get_workbook_details] returns none, as if the lookup had
    failed. *)
Theorem malformed_views_discard_the_workbook (workbook_id : string) (w w1 w2 : World)
    (body vbody msg : string) (root workbook : Element) :
  make_api_request ("workbooks/" +:+ workbook_id) "GET" None w
    = (Return (JStr body), w1) ->
  body <> "" ->
  fromstring body = Tree root ->
  find_desc root "workbook" = Some workbook ->
  make_api_request ("workbooks/" +:+ workbook_id +:+ "/views") "GET" None w1
    = (Return (JStr vbody), w2) ->
  vbody <> "" ->
  fromstring vbody = Malformed msg ->
  get_workbook_details workbook_id w = (Return None, w2).
Proof. apply get_workbook_details_views_malformed. Qed.

(** X15. The listings catch parse errors only: a payload decoded from JSON
    that is neither empty nor a string makes [list_workbooks] and
    [list_data_sources] raise a type error instead of returning a list. *)
Theorem decoded_payload_escapes_the_listings (w w' : World) (p : Json) :
  truthy_json p = true ->
  (forall s, p <> JStr s) ->
  (make_api_request "workbooks" "GET" None w = (Return p, w') ->
   exists msg, list_workbooks w = (Raise (TypeError msg), w')) /\
  (make_api_request "datasources" "GET" None w = (Return p, w') ->
   exists msg, list_data_sources w = (Raise (TypeError msg), w')).
Proof.
  intros Htruthy Hnot. split; intros Hreq.
  - now apply list_workbooks_refused with (p := p).
  - now apply list_data_sources_refused with (p := p).
Qed.

(** X16. Sign-in is lazy and feeds the request that triggered it: a client
    without a token signs in first and then sends the API request with the
    token just received in its auth header and the site id just received in
    its path; both are stored in the client. *)
Theorem lazy_signin_feeds_the_request (w : World) (s : ClientSession) (r : Response)
    (root credentials site : Element) (token uuid endpoint method : string)
    (data : option string) :
  truthy (auth_token (client w)) = false ->
  truthy (token_name (client w)) = true ->
  truthy (token_value (client w)) = true ->
  session (client w) = Some s ->
  net (length (sent w)) s (signin_request (client w)) = Return r ->
  status r = 200%Z ->
  fromstring (text r) = Tree root ->
  find_desc root "credentials" = Some credentials ->
  get credentials "token" = Some token ->
  find_child credentials "site" = Some site ->
  get site "id" = Some uuid ->
  snd (make_api_request endpoint method data w) =
    {| client := with_site_uuid (Some uuid) (with_auth_token (Some token) (client w));
       sent := sent w ++
         [signin_request (client w);
          {| method := method;
             url := urljoin (server_url (client w))
                      ("/api/3.19/sites/" +:+ uuid +:+ "/" +:+ endpoint);
             data := data;
             headers :=
               [("X-Tableau-Auth", Some token);
                ("Content-Type",
                 Some (if truthy data then "application/xml" else "application/json"))];
             proxy := proxy_arg (client w) |}] |}.
Proof.
  intros Htok Hn Hv Hs Hnet Hst Hp Hcred Htoken Hsite Huuid.
  rewrite (make_api_request_after_signin fromstring urljoin net w s r root
             endpoint method data Htok Hn Hv Hs Hnet Hst Hp).
  - unfold signin_effect. rewrite Hcred, Hsite, Htoken, Huuid. reflexivity.
  - unfold signin_effect. rewrite Hcred, Hsite, Htoken. reflexivity.
Qed.


(** X18. A failed fetch reads as an empty catalogue: when the client holds
    a token and the listing request meets a transport failure or a status
    other than 200 and 201, the [list_workbooks] tool answers with the plain,
    not error-flagged, "No workbooks found" text. *)
Theorem failed_listing_reads_as_empty (w : World) (s : ClientSession)
    (arguments : gmap string string) :
  truthy (auth_token (client w)) = true ->
  session (client w) = Some s ->
  (forall r,
      net (length (sent w)) s (api_request urljoin (client w) "workbooks" "GET" None)
        = Return r ->
      status r <> 200%Z /\ status r <> 201%Z) ->
  handle_call_tool "list_workbooks" arguments w =
    (Return (text_result "No workbooks found or unable to retrieve workbooks." false),
     {| client := client w;
        sent := sent w ++ [api_request urljoin (client w) "workbooks" "GET" None] |}).
Proof.
  intros Htok Hs Hfail.
  destruct (make_api_request_held fromstring urljoin net w s "workbooks" "GET" None Htok Hs)
    as [p [Hreq [Hstatus Hraise]]].
  assert (Hp : p = JNull).
  { destruct (net (length (sent w)) s
                (api_request urljoin (client w) "workbooks" "GET" None)) as [r | e] eqn:E.
    - destruct (Hfail r eq_refl) as [H200 H201]. now apply (Hstatus r).
    - now apply (Hraise e). }
  subst p.
  rewrite handle_after_session; simpl.
  destruct (ensure_session_effect w) as [s0 [_ Hsame]].
  destruct (Hsame s Hs) as [_ ->].
  apply guarded_return. unfold list_workbooks_branch.
  rewrite (bind_return _ _ _ _ _
             (list_workbooks_unreadable fromstring urljoin net w _ JNull Hreq
                (or_introl eq_refl))).
  reflexivity.
Qed.

End Extras.

(** ** Scenarios *)

Lemma catalog_server_complete : complete_server documents catalog_server.
Proof.
  intros n s req r H. unfold catalog_server, scripted in H.
  destruct n as [| [| n]]; simpl in H.
  - injection H as <-. intros root cred _ Hp Hf.
    vm_compute in Hp. injection Hp as <-.
    vm_compute in Hf. injection Hf as <-.
    split; [reflexivity |]. eexists. split; reflexivity.
  - injection H as <-. intros root cred _ Hp Hf.
    vm_compute in Hp. injection Hp as <-.
    vm_compute in Hf. discriminate.
  - destruct n; discriminate.
Defined.

(** C1 at the scenario of a complete sign-in followed by a listing. *)
Lemma all_or_nothing_preserved_witness :
  complete_server documents catalog_server /\
  all_or_nothing (client ready) /\
  all_or_nothing (client (snd (authenticate documents catalog_server ready))) /\
  all_or_nothing
    (client (snd (make_api_request documents urljoin_origin catalog_server
                    "workbooks" "GET" None ready))) /\
  all_or_nothing
    (client (snd (handle_call_tool documents urljoin_origin catalog_server ascii_lower
                    "list_workbooks" ∅ ready))).
Proof.
  split; [exact catalog_server_complete |].
  split; [reflexivity |].
  apply (all_or_nothing_preserved documents urljoin_origin catalog_server ascii_lower ready
           "workbooks" "GET" None "list_workbooks" ∅).
  - exact catalog_server_complete.
  - reflexivity.
Defined.

(** C1 as stated fails: a 200 sign-in answer whose [credentials] element has
    a token but no [site] child leaves the token set and the site UUID
    unset, and [authenticate] reports success. *)
Lemma partial_signin_splits_token_and_site :
  all_or_nothing (client ready) /\
  authenticate documents (scripted [xml_reply token_only_body]) ready =
    (Return true,
     {| client := with_auth_token (Some "T1") ready_client;
        sent := [signin_request ready_client] |}) /\
  ~ all_or_nothing
      (client (snd (authenticate documents (scripted [xml_reply token_only_body]) ready))).
Proof.
  split; [reflexivity |].
  split; [vm_compute; reflexivity |].
  vm_compute. discriminate.
Qed.

(** C7 at a client built without credentials. *)
Lemma authenticate_without_credentials_witness :
  (truthy (token_name (client unconfigured)) = false \/
   truthy (token_value (client unconfigured)) = false) /\
  authenticate documents catalog_server unconfigured =
    (Raise (ValueError
              "TABLEAU_TOKEN_NAME and TABLEAU_TOKEN_VALUE must be set in .env file"),
     unconfigured).
Proof.
  split; [left; reflexivity |].
  apply (authenticate_without_credentials documents catalog_server unconfigured).
  left; reflexivity.
Defined.

(** C9 at a sign-in answer whose [credentials] element carries no token. *)
Lemma signin_200_is_success_witness :
  fst (authenticate documents (scripted [xml_reply no_token_body]) ready) = Return true /\
  fst (handle_call_tool documents urljoin_origin (scripted [xml_reply no_token_body]) ascii_lower
         "test_connection" ∅ ready) =
    Return (text_result
              ("‚úÖ Successfully connected to " +:+ server_url (client ready) +:+ nl +:+
               "Site: " +:+ site_id (client ready) +:+ nl +:+
               "Auth Token: Missing")
              false).
Proof.
  destruct (signin_200_is_success documents urljoin_origin
              (scripted [xml_reply no_token_body]) ascii_lower ready {| trust_env := false |}
              {| status := 200; content_type := "application/xml";
                 text := no_token_body;
                 json := Raise (ClientError "unexpected mimetype") |}
              no_token_tree ∅ eq_refl eq_refl eq_refl eq_refl eq_refl eq_refl)
    as [Hauth Htool].
  split; [exact Hauth | apply Htool; reflexivity].
Defined.


(** C8 at a workbook with every field and two views. *)
Lemma workbook_details_record_witness :
  fst (get_workbook_details documents urljoin_origin details_server "wb1" ready) =
    Return (Some orders_details).
Proof.
  erewrite (proj1 (workbook_details_record documents urljoin_origin details_server "wb1")
              ready _ _ rich_workbook_body (Elem "tsResponse" [] [rich_workbook])
              rich_workbook (JStr views_body) orders_views).
  - reflexivity.
  - vm_compute. reflexivity.
  - unfold rich_workbook_body. discriminate.
  - vm_compute. reflexivity.
  - vm_compute. reflexivity.
  - vm_compute. reflexivity.
  - right. exists views_body, views_tree.
    split; [reflexivity |].
    split; [unfold views_body; discriminate |].
    split; vm_compute; reflexivity.
Defined.

(** C8 as stated fails: the record [get_workbook_details] returns for a
    workbook with timestamps, a project and an owner is the record it returns
    for the same workbook without them; it holds id, name, description, size,
    views and view count only, while the listing record of the same element
    does carry those fields. *)
Lemma details_omit_timestamps_project_owner :
  fst (get_workbook_details documents urljoin_origin details_server "wb1" ready) =
    Return (Some orders_details) /\
  fst (get_workbook_details documents urljoin_origin bare_details_server "wb1" ready) =
    Return (Some orders_details) /\
  Workbook.createdAt (workbook_record rich_workbook) = Some "2024-01-01T00:00:00Z" /\
  Workbook.updatedAt (workbook_record rich_workbook) = Some "2024-02-01T00:00:00Z" /\
  Workbook.project (workbook_record rich_workbook) = Some "Finance" /\
  Workbook.owner (workbook_record rich_workbook) = Some "alice" /\
  workbook_record rich_workbook <> workbook_record bare_workbook.
Proof.
  repeat split; try (vm_compute; reflexivity).
  vm_compute. discriminate.
Qed.



(** The example of the specification: of "Sales Report" and "sales report
    copy", the name "SALES REPORT" selects the first only. *)
Example sales_report_resolution :
  next_match ascii_lower [sales_report; sales_report_copy] "SALES REPORT" =
    Return (Some sales_report) /\
  next_match ascii_lower [sales_report_copy] "SALES REPORT" = Return None.
Proof. split; vm_compute; reflexivity. Qed.

(** C5 at the query "sales" over the two sales workbooks and the two data
    sources. *)
Lemma search_content_selects_matches_witness :
  handle_call_tool documents urljoin_origin sales_server ascii_lower "search_content"
    {["query" := "sales"]} ready =
    (Return (text_result
               (String.concat nl
                  (search_report "sales" [sales_report; sales_report_copy]
                     [retail_sales]))
               false),
     snd (list_data_sources documents urljoin_origin sales_server
            (snd (list_workbooks documents urljoin_origin sales_server ready)))).
Proof.
  destruct (search_content_selects_matches documents urljoin_origin sales_server
              ascii_lower {["query" := "sales"]} ready
              (snd (list_workbooks documents urljoin_origin sales_server ready))
              (snd (list_data_sources documents urljoin_origin sales_server
                      (snd (list_workbooks documents urljoin_origin sales_server ready))))
              [sales_report; sales_report_copy] [inventory; retail_sales])
    as [Hnamed _].
  - vm_compute. reflexivity.
  - vm_compute. reflexivity.
  - destruct Hnamed as [mw [md [Hrun [[f [Hmw Hf]] [[g [Hmd Hg]] _]]]]].
    + repeat constructor.
    + repeat constructor.
    + assert (Emw : mw = [sales_report; sales_report_copy]).
      { rewrite Hmw. simpl.
        assert (H1 : f sales_report = true).
        { apply Hf; [now left |]. left. exists "Sales Report". split; [reflexivity |].
          exists "", " report". vm_compute. reflexivity. }
        assert (H2 : f sales_report_copy = true).
        { apply Hf; [right; now left |]. left. exists "sales report copy".
          split; [reflexivity |]. exists "", " report copy". vm_compute. reflexivity. }
        now rewrite H1, H2. }
      assert (Emd : md = [retail_sales]).
      { rewrite Hmd. simpl.
        assert (H1 : g inventory = false).
        { destruct (g inventory) eqn:E; [| reflexivity].
          apply Hg in E; [| now left].
          assert (Hb : hit_b ascii_lower "sales" (DataSource.name inventory)
                         (DataSource.description inventory) = true)
            by (apply hit_b_spec; exact E).
          vm_compute in Hb. discriminate. }
        assert (H2 : g retail_sales = true).
        { apply Hg; [right; now left |]. left. exists "Retail Sales".
          split; [reflexivity |]. exists "retail ", "". vm_compute. reflexivity. }
        now rewrite H1, H2. }
      rewrite Hrun, Emw, Emd. reflexivity.
Defined.

(** C5 as stated fails: with a workbook listed without a name, the search
    for "sales" ends in the generic error, although the workbook "Sales
    Report" is listed and contains the query. *)
Lemma unnamed_workbook_stops_the_search :
  fst (list_workbooks odd_documents urljoin_origin unnamed_first_server ready) =
    Return [workbook_record (Elem "workbook" [("id", "wb0")] []);
            workbook_record
              (Elem "workbook" [("id", "wb-a"); ("name", "Sales Report")] [])] /\
  hit ascii_lower "sales" (Some "Sales Report") "" /\
  fst (handle_call_tool odd_documents urljoin_origin unnamed_first_server ascii_lower
         "search_content" {["query" := "sales"]} ready) =
    Return (text_result
              ("Error executing search_content: " +:+
               "'NoneType' object has no attribute 'lower'") true).
Proof.
  split; [vm_compute; reflexivity | split; [| vm_compute; reflexivity]].
  left. exists "Sales Report". split; [reflexivity |].
  exists "", " report". vm_compute. reflexivity.
Qed.

(** C6 at a listing cut short by the server, and at a request the server
    rejects. *)
Lemma listings_empty_on_unreadable_answer_witness :
  list_workbooks documents urljoin_origin (scripted [xml_reply truncated_body])
    signed_in =
    (Return [],
     {| client := client signed_in;
        sent := [api_request urljoin_origin (client signed_in) "workbooks" "GET" None] |}) /\
  list_data_sources documents urljoin_origin (scripted [xml_reply truncated_body])
    signed_in =
    (Return [],
     {| client := client signed_in;
        sent := [api_request urljoin_origin (client signed_in) "datasources" "GET" None] |}).
Proof.
  destruct (listings_empty_on_unreadable_answer documents urljoin_origin
              (scripted [xml_reply truncated_body]) signed_in signed_in JNull)
    as [_ [Hanswer _]].
  destruct (Hanswer {| trust_env := false |} eq_refl eq_refl) as [Hwb Hds].
  split; [apply Hwb | apply Hds]; right;
    (split; [vm_compute; reflexivity | right; exists "syntax error"; reflexivity]).
Defined.

(** C6 as stated fails: a 200 answer declared as JSON whose body, the JSON
    text of a list, is not well-formed XML makes both listings raise. *)
Lemma json_answer_escapes_the_listings :
  (exists r, json_list_reply = Return r /\ status r = 200%Z /\
             documents (text r) = Malformed "syntax error") /\
  fst (list_workbooks documents urljoin_origin json_list_server ready) =
    Raise (TypeError "a bytes-like object is required, not 'list'") /\
  fst (list_data_sources documents urljoin_origin json_list_server ready) =
    Raise (TypeError "a bytes-like object is required, not 'list'").
Proof.
  split; [| split; vm_compute; reflexivity].
  eexists. split; [reflexivity |]. split; vm_compute; reflexivity.
Qed.



(** X1 at an empty exemption list with a proxy configured. *)
Lemma initialize_session_empty_exemption_witness :
  initialize_session proxied =
    (Return tt,
     {| client := with_session (Some {| trust_env := false |}) (client proxied);
        sent := [] |}).
Proof.
  apply (initialize_session_empty_exemption proxied). left. reflexivity.
Defined.

(** X5 at a token the server no longer accepts. *)
Lemma held_token_is_not_refreshed_witness :
  make_api_request documents urljoin_origin (scripted [unauthorized])
    "workbooks" "GET" None signed_in =
    (Return JNull,
     {| client := client signed_in;
        sent := [api_request urljoin_origin (client signed_in) "workbooks" "GET" None] |}).
Proof.
  destruct (held_token_is_not_refreshed documents urljoin_origin (scripted [unauthorized])
              signed_in {| trust_env := false |} "workbooks" "GET" None
              eq_refl eq_refl) as [p [Hrun [Hstatus _]]].
  rewrite Hrun. f_equal. f_equal.
  apply (Hstatus {| status := 401; content_type := "application/xml";
                    text := "<tsResponse><error code='401002'/></tsResponse>";
                    json := Raise (ClientError "unexpected mimetype") |});
    [reflexivity | discriminate | discriminate].
Defined.

(** X6 at a client that already holds a token. *)
Lemma test_connection_signs_in_again_witness :
  sent (snd (handle_call_tool documents urljoin_origin (scripted [xml_reply signin_body]) ascii_lower
               "test_connection" ∅ signed_in)) =
    [signin_request (client signed_in)].
Proof.
  apply (test_connection_signs_in_again documents urljoin_origin
           (scripted [xml_reply signin_body]) ascii_lower signed_in {| trust_env := false |} ∅);
    reflexivity.
Defined.

(** X7 at a rejected sign-in of a client that holds a token. *)
Lemma failed_signin_keeps_client_witness :
  client (snd (authenticate documents (scripted [unauthorized]) signed_in)) =
    client signed_in.
Proof.
  apply (failed_signin_keeps_client documents (scripted [unauthorized]) signed_in).
  vm_compute. discriminate.
Defined.

(** X8 at a fresh client whose sign-in is rejected. *)
Lemma rejected_signin_request_is_refused_witness :
  make_api_request documents urljoin_origin
    (scripted [unauthorized; xml_reply workbooks_body]) "workbooks" "GET" None ready =
    (Return JNull,
     {| client := ready_client; sent := [signin_request ready_client] |}).
Proof.
  refine (proj1 (rejected_signin_request_is_refused documents urljoin_origin
                   (scripted [unauthorized; xml_reply workbooks_body])
                   ready {| trust_env := false |}
                   {| status := 401; content_type := "application/xml";
                      text := "<tsResponse><error code='401002'/></tsResponse>";
                      json := Raise (ClientError "unexpected mimetype") |}
                   "workbooks" "GET" None _ _ _ _ _ _)); try reflexivity.
  discriminate.
Defined.

(** X4 is reached: when every sign-in is accepted with an empty token,
    resolving a name and fetching its details takes six requests. *)
Example six_requests :
  length (sent (snd (handle_call_tool odd_documents urljoin_origin empty_token_server
                       ascii_lower "get_workbook_details"
                       {["workbook_name" := "sales report"]} ready))) = 6.
Proof. vm_compute. reflexivity. Qed.

(** X9 at a client built without credentials. *)
Lemma missing_credentials_are_reported_witness :
  fst (handle_call_tool documents urljoin_origin catalog_server ascii_lower
         "list_workbooks" ∅ unconfigured) =
    Return (text_result
              ("Error executing list_workbooks: " +:+
               "TABLEAU_TOKEN_NAME and TABLEAU_TOKEN_VALUE must be set in .env file")
              true).
Proof.
  destruct (missing_credentials_are_reported documents urljoin_origin catalog_server ascii_lower
              "list_workbooks" ∅ unconfigured eq_refl (or_introl eq_refl)
              (or_intror (or_introl eq_refl))) as [Hrun _].
  rewrite Hrun. reflexivity.
Defined.

(** X10 at a name the catalogue lacks and at one it has. *)
Lemma dispatcher_serves_the_catalogue_witness :
  fst (handle_call_tool documents urljoin_origin catalog_server ascii_lower
         "delete_workbook" ∅ ready) =
    Return (text_result "Unknown tool: delete_workbook" true) /\
  not_unknown
    (result_text
       (text_result "No workbooks found or unable to retrieve workbooks." false)).
Proof.
  split.
  - destruct (proj1 (dispatcher_serves_the_catalogue documents urljoin_origin
                       catalog_server ascii_lower "delete_workbook" ∅ ready)) as [Hrun _].
    + unfold advertised; simpl. intuition discriminate.
    + rewrite Hrun. reflexivity.
  - apply (proj2 (dispatcher_serves_the_catalogue documents urljoin_origin
                    (scripted []) ascii_lower "list_workbooks" ∅ signed_in)
             (or_introl eq_refl)
             (text_result "No workbooks found or unable to retrieve workbooks." false)
             (snd (handle_call_tool documents urljoin_origin (scripted []) ascii_lower
                     "list_workbooks" ∅ signed_in))).
    vm_compute. reflexivity.
Defined.

(** X11 at a call without arguments. *)
Lemma details_need_an_argument_witness :
  fst (handle_call_tool documents urljoin_origin catalog_server ascii_lower
         "get_workbook_details" ∅ ready) =
    Return (text_result
              "‚ùå Please provide either workbook_name or workbook_id." true).
Proof.
  destruct (details_need_an_argument documents urljoin_origin catalog_server ascii_lower ∅ ready)
    as [Hrun _].
  - vm_compute. reflexivity.
  - vm_compute. reflexivity.
  - rewrite Hrun. reflexivity.
Defined.

(** X12 at a listing whose only workbook has a name and no id. *)
Lemma resolved_workbook_without_id_witness :
  fst (handle_call_tool more_documents urljoin_origin orphan_server ascii_lower
         "get_workbook_details" {["workbook_name" := "orphan"]} ready) =
    Return (text_result
              "‚ùå Please provide either workbook_name or workbook_id." true).
Proof.
  rewrite (resolved_workbook_without_id more_documents urljoin_origin orphan_server ascii_lower
             {["workbook_name" := "orphan"]} "orphan" ready
             (snd (list_workbooks more_documents urljoin_origin orphan_server ready))
             [] [] (workbook_record (Elem "workbook" [("name", "Orphan")] []))).
  - reflexivity.
  - vm_compute. reflexivity.
  - discriminate.
  - vm_compute. reflexivity.
  - vm_compute. reflexivity.
  - constructor.
  - exists "Orphan". split; vm_compute; reflexivity.
  - reflexivity.
Defined.


(** X14 at a workbook whose views body is cut short. *)
Lemma malformed_views_discard_the_workbook_witness :
  fst (get_workbook_details documents urljoin_origin broken_views_server "wb1" ready) =
    Return None.
Proof.
  erewrite (malformed_views_discard_the_workbook documents urljoin_origin
              broken_views_server "wb1" ready _ _ rich_workbook_body truncated_body
              "syntax error" (Elem "tsResponse" [] [rich_workbook]) rich_workbook).
  - reflexivity.
  - vm_compute. reflexivity.
  - unfold rich_workbook_body. discriminate.
  - vm_compute. reflexivity.
  - vm_compute. reflexivity.
  - vm_compute. reflexivity.
  - unfold truncated_body. discriminate.
  - vm_compute. reflexivity.
Defined.

(** X15 at a listing answered in JSON. *)
Lemma decoded_payload_escapes_the_listings_witness :
  exists msg,
    fst (list_workbooks documents urljoin_origin json_server ready) =
      Raise (TypeError msg).
Proof.
  destruct (proj1 (decoded_payload_escapes_the_listings documents urljoin_origin
                     json_server ready
                     (snd (make_api_request documents urljoin_origin json_server
                             "workbooks" "GET" None ready))
                     (JDict [("workbooks", JList [])]) eq_refl
                     (fun s H => eq_ind (JDict [("workbooks", JList [])])
                                   (fun j => match j with JDict _ => True | _ => False end)
                                   I (JStr s) H)))
    as [msg Hrun].
  - vm_compute. reflexivity.
  - exists msg. now rewrite Hrun.
Defined.

(** X16 at the sign-in that answers T1 and S1. *)
Lemma lazy_signin_feeds_the_request_witness :
  snd (make_api_request documents urljoin_origin catalog_server
         "workbooks" "GET" None ready) =
    {| client := client signed_in;
       sent :=
         [signin_request (client ready);
          {| method := "GET";
             url := "https://tableau.example.com/api/3.19/sites/S1/workbooks";
             data := None;
             headers :=
               [("X-Tableau-Auth", Some "T1"); ("Content-Type", Some "application/json")];
             proxy := None |}] |}.
Proof.
  rewrite (lazy_signin_feeds_the_request documents urljoin_origin catalog_server
             ready {| trust_env := false |}
             {| status := 200; content_type := "application/xml"; text := signin_body;
                json := Raise (ClientError "unexpected mimetype") |}
             signin_tree
             (Elem "credentials" [("token", "T1")] [Elem "site" [("id", "S1")] []])
             (Elem "site" [("id", "S1")] [])
             "T1" "S1" "workbooks" "GET" None);
    reflexivity.
Defined.


(** X18 at a token the server no longer accepts. *)
Lemma failed_listing_reads_as_empty_witness :
  fst (handle_call_tool documents urljoin_origin (scripted [unauthorized]) ascii_lower
         "list_workbooks" ∅ signed_in) =
    Return (text_result "No workbooks found or unable to retrieve workbooks." false).
Proof.
  rewrite (failed_listing_reads_as_empty documents urljoin_origin (scripted [unauthorized]) ascii_lower
             signed_in {| trust_env := false |} ∅ eq_refl eq_refl).
  - reflexivity.
  - intros r H. vm_compute in H. injection H as <-. split; discriminate.
Defined.
